(** * utils.py: the slot calendar (TimeSlot, Calendar)

    A shallow embedding of [TimeSlot] and [Calendar] from [utils.py] and of
    the part of Python's [datetime] module they rely on, followed by the
    properties of construction, rounding, lookup, enumeration and booking. *)

From Stdlib Require Import ZArith List String Bool Lia.
Import ListNotations.
Open Scope Z_scope.
Open Scope list_scope.

(** ** Python exceptions and results *)

Inductive exn : Type :=
| ZeroDivisionError
| OverflowError.

(** What a call does: it returns a value or it raises. *)
Inductive result (A : Type) : Type :=
| Ok (a : A)
| Raise (e : exn).

Arguments Ok {A} a.
Arguments Raise {A} e.

Definition bind {A B : Type} (r : result A) (k : A -> result B) : result B :=
  match r with
  | Ok a => k a
  | Raise e => Raise e
  end.

Notation "x <- r ;; k" := (bind r (fun x => k))
  (at level 61, r at next level, right associativity).

(** Python's [a % b] on ints: the remainder has the sign of [b] (this is
    [Z.modulo]) and [b = 0] raises. *)
Definition py_mod (a b : Z) : result Z :=
  if b =? 0 then Raise ZeroDivisionError else Ok (a mod b).

(** ** The [datetime] module (naive values only)

    A date is its proleptic Gregorian ordinal ([date.toordinal()], day 1 is
    0001-01-01): dates compare as their ordinals do.  A [timedelta] is its
    total number of microseconds.  [datetime.__add__] goes through the
    ordinal exactly as below. *)
Module datetime.

Definition MAXORDINAL : Z := 3652059.        (* date(9999, 12, 31) *)
Definition MAX_DELTA_DAYS : Z := 999999999.
Definition US_PER_SECOND : Z := 1000000.
Definition US_PER_MINUTE : Z := 60000000.
Definition US_PER_HOUR : Z := 3600000000.
Definition US_PER_DAY : Z := 86400000000.

Definition date : Type := Z.

Record time : Type := mk_time
  { t_hour : Z; t_minute : Z; t_second : Z; t_microsecond : Z }.

Record datetime : Type := mk_datetime
  { ordinal : Z; hour : Z; minute : Z; second : Z; microsecond : Z }.

Definition timedelta : Type := Z.

(** The values Python can build. *)
Definition valid_time (t : time) : Prop :=
  0 <= t_hour t < 24 /\ 0 <= t_minute t < 60 /\
  0 <= t_second t < 60 /\ 0 <= t_microsecond t < 1000000.

Definition valid (d : datetime) : Prop :=
  1 <= ordinal d <= MAXORDINAL /\
  0 <= hour d < 24 /\ 0 <= minute d < 60 /\
  0 <= second d < 60 /\ 0 <= microsecond d < 1000000.

(** [_cmp] on the tuples of fields. *)
Fixpoint cmp (x y : list Z) : comparison :=
  match x, y with
  | [], [] => Eq
  | [], _ :: _ => Lt
  | _ :: _, [] => Gt
  | a :: x', b :: y' =>
      match a ?= b with
      | Eq => cmp x' y'
      | c => c
      end
  end.

Definition time_fields (t : time) : list Z :=
  [t_hour t; t_minute t; t_second t; t_microsecond t].

Definition fields (d : datetime) : list Z :=
  [ordinal d; hour d; minute d; second d; microsecond d].

(** [time.__le__], [time.__ge__] *)
Definition time_le (a b : time) : bool :=
  match cmp (time_fields a) (time_fields b) with Gt => false | _ => true end.
Definition time_ge (a b : time) : bool :=
  match cmp (time_fields a) (time_fields b) with Lt => false | _ => true end.
Definition time_gt (a b : time) : bool :=
  match cmp (time_fields a) (time_fields b) with Gt => true | _ => false end.

(** [datetime.__lt__], [__le__], [__eq__] *)
Definition lt (a b : datetime) : bool :=
  match cmp (fields a) (fields b) with Lt => true | _ => false end.
Definition le (a b : datetime) : bool :=
  match cmp (fields a) (fields b) with Gt => false | _ => true end.
Definition eqb (a b : datetime) : bool :=
  match cmp (fields a) (fields b) with Eq => true | _ => false end.

(** [datetime.time()], [datetime.date()] *)
Definition time_of (d : datetime) : time :=
  mk_time (hour d) (minute d) (second d) (microsecond d).
Definition date_of (d : datetime) : date := ordinal d.

(** [datetime.replace(second=0, microsecond=0)] *)
Definition replace_second_microsecond (d : datetime) (s us : Z) : datetime :=
  mk_datetime (ordinal d) (hour d) (minute d) s us.

(** [timedelta(minutes=m)]: the days must have magnitude at most
    999999999. *)
Definition in_delta_range (us : Z) : bool :=
  (- MAX_DELTA_DAYS <=? us / US_PER_DAY) && (us / US_PER_DAY <=? MAX_DELTA_DAYS).

Definition timedelta_minutes (m : Z) : result timedelta :=
  let us := m * US_PER_MINUTE in
  if in_delta_range us then Ok us else Raise OverflowError.

(** [timedelta.__neg__] *)
Definition neg (td : timedelta) : result timedelta :=
  if in_delta_range (- td) then Ok (- td) else Raise OverflowError.

(** Microseconds since the midnight that starts ordinal 0. *)
Definition to_us (d : datetime) : Z :=
  ordinal d * US_PER_DAY + hour d * US_PER_HOUR + minute d * US_PER_MINUTE
  + second d * US_PER_SECOND + microsecond d.

Definition of_us (n : Z) : datetime :=
  let days := n / US_PER_DAY in
  let rest := n mod US_PER_DAY in
  mk_datetime days
              (rest / US_PER_HOUR)
              ((rest mod US_PER_HOUR) / US_PER_MINUTE)
              ((rest mod US_PER_MINUTE) / US_PER_SECOND)
              (rest mod US_PER_SECOND).

(** [datetime.__add__(timedelta)]: "result out of range" unless
    [0 < days <= _MAXORDINAL]. *)
Definition add (d : datetime) (td : timedelta) : result datetime :=
  let n := to_us d + td in
  let days := n / US_PER_DAY in
  if (0 <? days) && (days <=? MAXORDINAL) then Ok (of_us n)
  else Raise OverflowError.

(** [datetime.__sub__(timedelta)] is [self + -other]. *)
Definition sub (d : datetime) (td : timedelta) : result datetime :=
  ntd <- neg td ;; add d ntd.

(** Time of day in microseconds, for stating results. *)
Definition time_us (t : time) : Z :=
  t_hour t * US_PER_HOUR + t_minute t * US_PER_MINUTE
  + t_second t * US_PER_SECOND + t_microsecond t.

End datetime.

Import datetime.

(** ** Python's [dict] keyed by datetimes

    Items are kept in insertion order; assigning to a key that is present
    replaces its value where it stands, assigning to a new key appends. *)
Definition dict (V : Type) : Type := list (datetime * V).

Fixpoint dict_get {V : Type} (d : dict V) (k : datetime) : option V :=
  match d with
  | [] => None
  | (k', v) :: rest => if eqb k' k then Some v else dict_get rest k
  end.

Fixpoint dict_set {V : Type} (d : dict V) (k : datetime) (v : V) : dict V :=
  match d with
  | [] => [(k, v)]
  | (k', v') :: rest =>
      if eqb k' k then (k', v) :: rest else (k', v') :: dict_set rest k v
  end.

Definition keys {V : Type} (d : dict V) : list datetime := map fst d.
Definition values {V : Type} (d : dict V) : list V := map snd d.

(** ** class TimeSlot *)

Record TimeSlot : Type := mk_TimeSlot
  { start_time : datetime;
    end_time : datetime;
    status : string;
    title : option string;
    description : option string;
    people_involved : list string }.

Definition available : string := "available".
Definition busy : string := "busy".

Definition set_status (s : TimeSlot) (st : string) : TimeSlot :=
  mk_TimeSlot (start_time s) (end_time s) st (title s) (description s)
              (people_involved s).

Definition set_title (s : TimeSlot) (t : string) : TimeSlot :=
  mk_TimeSlot (start_time s) (end_time s) (status s) (Some t) (description s)
              (people_involved s).

(** [TimeSlot.is_during_workday] *)
Definition is_during_workday (self : TimeSlot) (work_start work_end : time) : bool :=
  let slot_start_time := time_of (start_time self) in
  let slot_end_time := time_of (end_time self) in
  let starts_after_begin := time_ge slot_start_time work_start in
  let ends_before_finish := time_le slot_end_time work_end in
  starts_after_begin && ends_before_finish.

(** [TimeSlot.__post_init__] *)
Definition post_init (self : TimeSlot) (work_start work_end : option time) : TimeSlot :=
  match work_start, work_end with
  | Some ws, Some we =>
      if negb (is_during_workday self ws we) then set_status self busy else self
  | _, _ => self
  end.

(** [TimeSlot(start_time=, end_time=, work_start=, work_end=)]: the generated
    [__init__] stores the fields with their defaults, then runs
    [__post_init__]. *)
Definition new_TimeSlot (start_time end_time : datetime)
           (work_start work_end : option time) : TimeSlot :=
  post_init (mk_TimeSlot start_time end_time available None None [])
            work_start work_end.

(** ** class Calendar *)

Record Calendar : Type := mk_Calendar
  { slots : dict TimeSlot;
    time_delta : timedelta;
    time_increment_minutes : Z }.

Definition set_slots (self : Calendar) (d : dict TimeSlot) : Calendar :=
  mk_Calendar d (time_delta self) (time_increment_minutes self).

(** The [while current_time < end_date] loop of [Calendar.__init__].  The
    loop need not stop, so it runs on fuel: [None] means the fuel ran out
    with the loop still going. *)
Fixpoint init_loop (fuel : nat) (end_date : datetime)
         (work_start work_end : option time) (delta : timedelta)
         (acc : dict TimeSlot) (current_time : datetime)
  : option (result (dict TimeSlot)) :=
  match fuel with
  | O => None
  | S fuel' =>
      if lt current_time end_date then
        match add current_time delta with
        | Raise e => Some (Raise e)
        | Ok end_time =>
            let slot := new_TimeSlot current_time end_time work_start work_end in
            init_loop fuel' end_date work_start work_end delta
                      (dict_set acc current_time slot) end_time
        end
      else Some (Ok acc)
  end.

(** [Calendar.__init__] *)
Definition Calendar_init (fuel : nat) (start_date end_date : datetime)
           (work_start work_end : option time) (time_increment_minutes : Z)
  : option (result Calendar) :=
  match timedelta_minutes time_increment_minutes with
  | Raise e => Some (Raise e)
  | Ok delta =>
      match init_loop fuel end_date work_start work_end delta [] start_date with
      | None => None
      | Some (Raise e) => Some (Raise e)
      | Some (Ok d) => Some (Ok (mk_Calendar d delta time_increment_minutes))
      end
  end.

(** [Calendar.round_to_nearest_slot] *)
Definition round_to_nearest_slot (self : Calendar) (time_to_round : datetime)
  : result datetime :=
  let total_minutes := hour time_to_round * 60 + minute time_to_round in
  remainder_minutes <- py_mod total_minutes (time_increment_minutes self) ;;
  td <- timedelta_minutes remainder_minutes ;;
  rounded_time <- sub time_to_round td ;;
  Ok (replace_second_microsecond rounded_time 0 0).

(** [Calendar.get_slot_at] *)
Definition get_slot_at (self : Calendar) (requested_time : datetime)
  : result (option TimeSlot) :=
  rounded_key <- round_to_nearest_slot self requested_time ;;
  Ok (dict_get (slots self) rounded_key).

(** The [for] loop of [Calendar.get_slots_for_day], with its [break]. *)
Fixpoint slots_for_day_loop (items : dict TimeSlot) (day : date) : list TimeSlot :=
  match items with
  | [] => []
  | (slot_time, slot) :: rest =>
      if date_of slot_time =? day then slot :: slots_for_day_loop rest day
      else if date_of slot_time >? day then []
      else slots_for_day_loop rest day
  end.

(** [Calendar.get_slots_for_day] *)
Definition get_slots_for_day (self : Calendar) (day : date) : list TimeSlot :=
  slots_for_day_loop (slots self) day.

(** [Calendar.book_slot].  The slot that [get_slot_at] hands back is the
    object stored in the dict under the rounded key, so the two assignments
    change the value under that key; nothing else is touched. *)
Definition book_slot (self : Calendar) (time_to_book : datetime) (title : string)
  : result (bool * Calendar) :=
  found <- get_slot_at self time_to_book ;;
  match found with
  | Some slot =>
      if String.eqb (status slot) available then
        rounded_key <- round_to_nearest_slot self time_to_book ;;
        Ok (true,
            set_slots self
              (dict_set (slots self) rounded_key
                        (set_title (set_status slot busy) title)))
      else Ok (false, self)
  | None => Ok (false, self)
  end.

(** ** Sequences of calendar operations *)

Inductive op : Type :=
| OpRound (t : datetime)
| OpGetSlotAt (t : datetime)
| OpGetSlotsForDay (d : date)
| OpBookSlot (t : datetime) (title : string).

(** The calendar after one operation; a call that raises leaves it as it
    was. *)
Definition step (c : Calendar) (o : op) : Calendar :=
  match o with
  | OpRound _ | OpGetSlotAt _ | OpGetSlotsForDay _ => c
  | OpBookSlot t s =>
      match book_slot c t s with
      | Ok (_, c') => c'
      | Raise _ => c
      end
  end.

Definition run (c : Calendar) (ops : list op) : Calendar := fold_left step ops c.

(** A calendar object: what [Calendar.__init__] returned, after any number
    of operations. *)
Definition constructed (c : Calendar) : Prop :=
  exists fuel start_date end_date work_start work_end inc c0 ops,
    valid start_date /\ valid end_date /\
    Calendar_init fuel start_date end_date work_start work_end inc = Some (Ok c0) /\
    c = run c0 ops.

(** ** Notions the properties are stated with *)

(** The ceiling of [a / b], for [b > 0]. *)
Definition ceil_div (a b : Z) : Z := - ((- a) / b).

(** The length of an increment of [inc] minutes, in microseconds. *)
Definition increment_us (inc : Z) : Z := inc * US_PER_MINUTE.

(** The slots follow one another from [from]: each is stored under its
    start time, ends one increment after it starts, and the next one starts
    where it ends. *)
Fixpoint contiguous (delta : timedelta) (d : dict TimeSlot) (from : datetime) : Prop :=
  match d with
  | [] => True
  | (k, s) :: rest =>
      k = from /\ start_time s = k /\ add k delta = Ok (end_time s) /\
      contiguous delta rest (end_time s)
  end.

(** A slot as the constructor left it. *)
Definition as_constructed (work_start work_end : option time)
           (kv : datetime * TimeSlot) : Prop :=
  snd kv = new_TimeSlot (fst kv) (end_time (snd kv)) work_start work_end.

(** Start times in strictly ascending order. *)
Fixpoint ascending (l : list datetime) : Prop :=
  match l with
  | [] => True
  | a :: rest =>
      match rest with
      | [] => True
      | b :: _ => lt a b = true
      end /\ ascending rest
  end.

(** Every slot is stored under its own start time. *)
Definition well_keyed (d : dict TimeSlot) : Prop :=
  Forall (fun kv => start_time (snd kv) = fst kv) d.

(** Python can build the increment as a [timedelta] and the end of the last
    slot as a [datetime]. *)
Definition representable (start_date end_date : datetime) (inc : Z) : Prop :=
  in_delta_range (increment_us inc) = true /\
  to_us start_date
  + Z.max 0 (ceil_div (to_us end_date - to_us start_date) (increment_us inc))
    * increment_us inc
  < (MAXORDINAL + 1) * US_PER_DAY.

(** [round_to_nearest_slot] as a floor: it returns, not after [t], at a
    fixed point, on a whole minute that is a multiple of the increment
    counted from midnight. *)
Definition floor_rounding (c : Calendar) (t : datetime) : Prop :=
  exists r,
    round_to_nearest_slot c t = Ok r /\
    le r t = true /\
    round_to_nearest_slot c r = Ok r /\
    second r = 0 /\ microsecond r = 0 /\
    exists k, hour r * 60 + minute r = k * time_increment_minutes c.

(** ** Concrete calendars for the examples *)

(** 2024-01-01 is day 738886; 9999-12-31 is the last day there is. *)
Definition on_2024_01_01 (h m : Z) : datetime := mk_datetime 738886 h m 0 0.
Definition on_2024_01_02 (h m : Z) : datetime := mk_datetime 738887 h m 0 0.
Definition on_9999_12_30 (h m : Z) : datetime := mk_datetime 3652058 h m 0 0.
Definition on_9999_12_31 (h m : Z) : datetime := mk_datetime 3652059 h m 0 0.
Definition clock (h m : Z) : time := mk_time h m 0 0.

(** [Calendar(2024-01-01T00:00, 2024-01-01T01:00, time(0, 0), time(23, 59))],
    as it comes out of the constructor: two slots, both available. *)
Definition first_hour : Calendar :=
  mk_Calendar
    [(on_2024_01_01 0 0,
      mk_TimeSlot (on_2024_01_01 0 0) (on_2024_01_01 0 30) available None None []);
     (on_2024_01_01 0 30,
      mk_TimeSlot (on_2024_01_01 0 30) (on_2024_01_01 1 0) available None None [])]
    1800000000 30.

(** A calendar over an empty range: no slot, whatever the increment. *)
Definition empty_calendar (inc : Z) : Calendar :=
  mk_Calendar [] (increment_us inc) inc.

(** The same range with working hours 09:00 to 17:00: both slots are busy
    from the start. *)
Definition first_hour_outside_work : Calendar :=
  mk_Calendar
    [(on_2024_01_01 0 0,
      mk_TimeSlot (on_2024_01_01 0 0) (on_2024_01_01 0 30) busy None None []);
     (on_2024_01_01 0 30,
      mk_TimeSlot (on_2024_01_01 0 30) (on_2024_01_01 1 0) busy None None [])]
    1800000000 30.

(** [Calendar(2024-01-01T23:00, 2024-01-02T01:00, time(17, 0), time(9, 0))]
    as it comes out of the constructor: the slot from 23:30 to midnight is
    available, the other three are busy. *)
Definition night_shift : Calendar :=
  mk_Calendar
    [(on_2024_01_01 23 0,
      mk_TimeSlot (on_2024_01_01 23 0) (on_2024_01_01 23 30) busy None None []);
     (on_2024_01_01 23 30,
      mk_TimeSlot (on_2024_01_01 23 30) (on_2024_01_02 0 0) available None None []);
     (on_2024_01_02 0 0,
      mk_TimeSlot (on_2024_01_02 0 0) (on_2024_01_02 0 30) busy None None []);
     (on_2024_01_02 0 30,
      mk_TimeSlot (on_2024_01_02 0 30) (on_2024_01_02 1 0) busy None None [])]
    1800000000 30.

(** [Calendar(2024-01-01T00:00, 2024-01-01T00:45)] as it comes out of the
    constructor: the second slot ends at 01:00. *)
Definition three_quarters : Calendar :=
  mk_Calendar
    [(on_2024_01_01 0 0,
      mk_TimeSlot (on_2024_01_01 0 0) (on_2024_01_01 0 30) available None None []);
     (on_2024_01_01 0 30,
      mk_TimeSlot (on_2024_01_01 0 30) (on_2024_01_01 1 0) available None None [])]
    1800000000 30.

(** ** Notions for calendars in use *)

(** [k] is on the grid [round_to_nearest_slot] rounds to: a whole minute
    whose count from midnight is a multiple of the increment. *)
Definition aligned (inc : Z) (k : datetime) : Prop :=
  second k = 0 /\ microsecond k = 0 /\ (hour k * 60 + minute k) mod inc = 0.

(** What the core keeps true of a slot: its status is one of the two, it has
    a title only when busy, and nothing ever fills in the description or the
    people involved. *)
Definition slot_ok (slot : TimeSlot) : Prop :=
  (status slot = available \/ status slot = busy) /\
  (status slot = available -> title slot = None) /\
  description slot = None /\
  people_involved slot = [].

(** How many slots are 'available'. *)
Definition count_available (d : dict TimeSlot) : nat :=
  List.length (filter (fun kv => String.eqb (status (snd kv)) available) d).

(** How many of the bookings among [ops] return true when [ops] runs from
    [c]. *)
Fixpoint successes (c : Calendar) (ops : list op) : nat :=
  match ops with
  | [] => 0%nat
  | o :: rest =>
      (match o with
       | OpBookSlot t s =>
           match book_slot c t s with
           | Ok (true, _) => 1%nat
           | _ => 0%nat
           end
       | _ => 0%nat
       end + successes (step c o) rest)%nat
  end.

(** [Calendar(2024-01-01T00:00:30, 2024-01-01T01:00)] as it comes out of the
    constructor: its slots start 30 seconds past the half hours. *)
Definition half_minute_late : Calendar :=
  mk_Calendar
    [(mk_datetime 738886 0 0 30 0,
      mk_TimeSlot (mk_datetime 738886 0 0 30 0) (mk_datetime 738886 0 30 30 0)
                  available None None []);
     (mk_datetime 738886 0 30 30 0,
      mk_TimeSlot (mk_datetime 738886 0 30 30 0) (mk_datetime 738886 1 0 30 0)
                  available None None [])]
    1800000000 30.

(** ** create_agent_system_prompt

    A Python [str] is its sequence of code points, so that [str.strip] can
    be given Python's own notion of white space. *)
Definition str : Type := list N.

(** The code points [c] with [chr(c).isspace()]. *)
Definition isspace (c : N) : bool :=
  existsb (N.eqb c)
          [9; 10; 11; 12; 13; 28; 29; 30; 31; 32; 133; 160; 5760; 8192; 8193;
           8194; 8195; 8196; 8197; 8198; 8199; 8200; 8201; 8202; 8232; 8233;
           8239; 8287; 12288]%N.

(** [str.lstrip()], [str.rstrip()], [str.strip()] *)
Fixpoint lstrip (s : str) : str :=
  match s with
  | [] => []
  | c :: rest => if isspace c then lstrip rest else s
  end.

Definition rstrip (s : str) : str := rev (lstrip (rev s)).

Definition strip (s : str) : str := rstrip (lstrip s).

(** The code points of an ASCII literal. *)
Definition codes (s : string) : str :=
  map Ascii.N_of_ascii (list_ascii_of_string s).

(** The three literal parts of the f-string, around [{persona}] and
    [{task}]. *)
Definition template_before_persona : str := codes "
You are a professional scheduling agent. Your sole purpose is to represent your 
boss in this interaction. 

You DO NOT have your own personality. Your entire behavioral style, priorities, 
quirks, and communication patterns are a direct and perfect reflection of the 
persona of your boss, described below. You must act *exactly* as they would 
act if they were managing this interaction themselves.

Read the persona carefully. Your boss's goals and frustrations are your goals 
and frustrations.

--- PERSONA OF YOUR BOSS ---
".

Definition template_before_task : str := codes "
--- END PERSONA ---

Your sole and immediate objective is to complete the following task. 
You must execute this task according to your boss's behavioral style.

--- YOUR CURRENT TASK ---
".

Definition template_after_task : str := codes "
--- END TASK ---
".

(** [create_agent_system_prompt] *)
Definition create_agent_system_prompt (persona task : str) : str :=
  let system_prompt :=
    template_before_persona ++ persona ++ template_before_task ++ task
    ++ template_after_task in
  strip system_prompt.

(** * Properties *)

(** ** Datetime arithmetic *)

Ltac unfold_units :=
  unfold US_PER_DAY, US_PER_HOUR, US_PER_MINUTE, US_PER_SECOND,
         MAXORDINAL, MAX_DELTA_DAYS in *.

Ltac divmod_lia := unfold_units; Z.div_mod_to_equations; lia.

(** Validity of a concrete date or time. *)
Ltac concrete_valid := unfold valid, valid_time, MAXORDINAL; simpl; lia.

Lemma cmp_refl (x : list Z) : cmp x x = Eq.
Proof.
  induction x as [|a x IH]; simpl; [reflexivity|].
  rewrite Z.compare_refl. exact IH.
Qed.

Lemma eqb_refl (a : datetime) : eqb a a = true.
Proof. unfold eqb. rewrite cmp_refl. reflexivity. Qed.

Lemma eqb_eq (a b : datetime) : eqb a b = true <-> a = b.
Proof.
  split; [|intros ->; apply eqb_refl].
  destruct a as [o1 h1 m1 s1 u1], b as [o2 h2 m2 s2 u2].
  unfold eqb, fields; simpl.
  destruct (Z.compare_spec o1 o2); try discriminate.
  destruct (Z.compare_spec h1 h2); try discriminate.
  destruct (Z.compare_spec m1 m2); try discriminate.
  destruct (Z.compare_spec s1 s2); try discriminate.
  destruct (Z.compare_spec u1 u2); try discriminate.
  intros _. subst. reflexivity.
Qed.

Lemma eqb_neq (a b : datetime) : eqb a b = false <-> a <> b.
Proof.
  rewrite <- eqb_eq. destruct (eqb a b); split; congruence.
Qed.

(** On valid values the field-wise order is the order of the instants. *)
Lemma cmp_to_us (a b : datetime) :
  valid a -> valid b -> cmp (fields a) (fields b) = (to_us a ?= to_us b).
Proof.
  destruct a as [o1 h1 m1 s1 u1], b as [o2 h2 m2 s2 u2].
  unfold valid, to_us, fields; simpl. intros Ha Hb.
  symmetry.
  destruct (Z.compare_spec o1 o2);
    [|apply Z.compare_lt_iff; divmod_lia|apply Z.compare_gt_iff; divmod_lia].
  destruct (Z.compare_spec h1 h2);
    [|apply Z.compare_lt_iff; divmod_lia|apply Z.compare_gt_iff; divmod_lia].
  destruct (Z.compare_spec m1 m2);
    [|apply Z.compare_lt_iff; divmod_lia|apply Z.compare_gt_iff; divmod_lia].
  destruct (Z.compare_spec s1 s2);
    [|apply Z.compare_lt_iff; divmod_lia|apply Z.compare_gt_iff; divmod_lia].
  destruct (Z.compare_spec u1 u2);
    [|apply Z.compare_lt_iff; divmod_lia|apply Z.compare_gt_iff; divmod_lia].
  subst. apply Z.compare_refl.
Qed.

Lemma lt_to_us (a b : datetime) :
  valid a -> valid b -> lt a b = (to_us a <? to_us b).
Proof.
  intros Ha Hb. unfold lt, Z.ltb. rewrite (cmp_to_us a b Ha Hb). reflexivity.
Qed.

Lemma le_to_us (a b : datetime) :
  valid a -> valid b -> le a b = (to_us a <=? to_us b).
Proof.
  intros Ha Hb. unfold le, Z.leb. rewrite (cmp_to_us a b Ha Hb). reflexivity.
Qed.

Lemma time_cmp_us (a b : time) :
  valid_time a -> valid_time b ->
  cmp (time_fields a) (time_fields b) = (time_us a ?= time_us b).
Proof.
  destruct a as [h1 m1 s1 u1], b as [h2 m2 s2 u2].
  unfold valid_time, time_us, time_fields; simpl. intros Ha Hb.
  symmetry.
  destruct (Z.compare_spec h1 h2);
    [|apply Z.compare_lt_iff; divmod_lia|apply Z.compare_gt_iff; divmod_lia].
  destruct (Z.compare_spec m1 m2);
    [|apply Z.compare_lt_iff; divmod_lia|apply Z.compare_gt_iff; divmod_lia].
  destruct (Z.compare_spec s1 s2);
    [|apply Z.compare_lt_iff; divmod_lia|apply Z.compare_gt_iff; divmod_lia].
  destruct (Z.compare_spec u1 u2);
    [|apply Z.compare_lt_iff; divmod_lia|apply Z.compare_gt_iff; divmod_lia].
  subst. apply Z.compare_refl.
Qed.

Lemma to_us_of_us (n : Z) : to_us (of_us n) = n.
Proof. unfold to_us, of_us; simpl. divmod_lia. Qed.

Lemma of_us_fields (n : Z) :
  0 <= hour (of_us n) < 24 /\ 0 <= minute (of_us n) < 60 /\
  0 <= second (of_us n) < 60 /\ 0 <= microsecond (of_us n) < 1000000.
Proof. unfold of_us; simpl. repeat split; divmod_lia. Qed.

Lemma of_us_ordinal (n : Z) : ordinal (of_us n) = n / US_PER_DAY.
Proof. reflexivity. Qed.

Lemma to_us_inj (a b : datetime) :
  valid a -> valid b -> to_us a = to_us b -> a = b.
Proof.
  intros Ha Hb E. apply eqb_eq. unfold eqb.
  rewrite (cmp_to_us a b Ha Hb), E, Z.compare_refl. reflexivity.
Qed.

Lemma to_us_div (d : datetime) : valid d -> to_us d / US_PER_DAY = ordinal d.
Proof.
  destruct d as [o h m s u]. unfold valid, to_us; simpl. intros H. divmod_lia.
Qed.

Lemma of_us_to_us (d : datetime) : valid d -> of_us (to_us d) = d.
Proof.
  intros H. apply to_us_inj; [|exact H|apply to_us_of_us].
  unfold valid. rewrite of_us_ordinal, (to_us_div d H).
  split; [apply H|apply of_us_fields].
Qed.

Lemma add_Ok (d : datetime) (td : timedelta) (r : datetime) :
  add d td = Ok r -> valid r /\ to_us r = to_us d + td.
Proof.
  unfold add.
  destruct ((0 <? (to_us d + td) / US_PER_DAY)
              && ((to_us d + td) / US_PER_DAY <=? MAXORDINAL)) eqn:E;
    [|discriminate].
  intros H; injection H as <-.
  apply andb_true_iff in E. destruct E as [E1 E2].
  apply Z.ltb_lt in E1. apply Z.leb_le in E2.
  split; [|apply to_us_of_us].
  unfold valid. rewrite of_us_ordinal.
  split; [lia|apply of_us_fields].
Qed.

Lemma add_in_range (d : datetime) (td : timedelta) :
  US_PER_DAY <= to_us d + td < (MAXORDINAL + 1) * US_PER_DAY ->
  add d td = Ok (of_us (to_us d + td)).
Proof.
  intros H. unfold add.
  assert (E1 : (0 <? (to_us d + td) / US_PER_DAY) = true)
    by (apply Z.ltb_lt; divmod_lia).
  assert (E2 : ((to_us d + td) / US_PER_DAY <=? MAXORDINAL) = true)
    by (apply Z.leb_le; divmod_lia).
  rewrite E1, E2. reflexivity.
Qed.

Lemma valid_range (d : datetime) :
  valid d -> US_PER_DAY <= to_us d < (MAXORDINAL + 1) * US_PER_DAY.
Proof.
  destruct d as [o h m s u]. unfold valid, to_us; simpl. intros H. divmod_lia.
Qed.

(** ** The dict *)

Lemma dict_get_set_same {V : Type} (d : dict V) (k : datetime) (v : V) :
  dict_get (dict_set d k v) k = Some v.
Proof.
  induction d as [|[k' v'] rest IH]; simpl.
  - rewrite eqb_refl. reflexivity.
  - destruct (eqb k' k) eqn:E; simpl; rewrite E; [reflexivity | exact IH].
Qed.

Lemma dict_get_set_other {V : Type} (d : dict V) (k k2 : datetime) (v : V) :
  k2 <> k -> dict_get (dict_set d k v) k2 = dict_get d k2.
Proof.
  intros Hne. induction d as [|[k' v'] rest IH]; simpl.
  - assert (E : eqb k k2 = false) by (apply eqb_neq; congruence).
    rewrite E. reflexivity.
  - destruct (eqb k' k) eqn:E; simpl.
    + apply eqb_eq in E. subst k'.
      assert (E2 : eqb k k2 = false) by (apply eqb_neq; congruence).
      rewrite E2. reflexivity.
    + destruct (eqb k' k2); [reflexivity | exact IH].
Qed.

Lemma dict_get_In {V : Type} (d : dict V) (k : datetime) (v : V) :
  dict_get d k = Some v -> In (k, v) d.
Proof.
  induction d as [|[k' v'] rest IH]; simpl; [discriminate|].
  destruct (eqb k' k) eqn:E.
  - apply eqb_eq in E. intros H; injection H as ->. left. congruence.
  - intros H. right. exact (IH H).
Qed.

Lemma dict_get_None {V : Type} (d : dict V) (k : datetime) :
  dict_get d k = None <-> ~ In k (keys d).
Proof.
  induction d as [|[k' v'] rest IH]; simpl.
  - split; [intros _ []|reflexivity].
  - destruct (eqb k' k) eqn:E.
    + apply eqb_eq in E. split; [discriminate|]. intros H. exfalso. auto.
    + apply eqb_neq in E. rewrite IH. split; [intros H [H1|H1]; auto|auto].
Qed.

Lemma dict_set_fresh {V : Type} (d : dict V) (k : datetime) (v : V) :
  ~ In k (keys d) -> dict_set d k v = d ++ [(k, v)].
Proof.
  induction d as [|[k' v'] rest IH]; simpl; intros H; [reflexivity|].
  destruct (eqb k' k) eqn:E.
  - apply eqb_eq in E. exfalso. auto.
  - f_equal. apply IH. auto.
Qed.

Lemma keys_dict_set_present {V : Type} (d : dict V) (k : datetime) (v : V) :
  In k (keys d) -> keys (dict_set d k v) = keys d.
Proof.
  induction d as [|[k' v'] rest IH]; simpl; intros H; [destruct H|].
  destruct (eqb k' k) eqn:E; simpl; [reflexivity|].
  f_equal. apply IH. destruct H as [H|H]; [|exact H].
  apply eqb_neq in E. congruence.
Qed.

Lemma dict_get_keys {V : Type} (d : dict V) (k : datetime) (v : V) :
  dict_get d k = Some v -> In k (keys d).
Proof.
  intros H. apply dict_get_In in H. unfold keys.
  change k with (fst (k, v)). apply in_map. exact H.
Qed.

(** ** The construction loop *)

Lemma ceil_div_nonpos (a b : Z) : 0 < b -> a <= 0 -> ceil_div a b <= 0.
Proof.
  intros Hb Ha. unfold ceil_div.
  assert (0 <= - a / b) by (apply Z.div_pos; lia). lia.
Qed.

Lemma ceil_div_step (a b : Z) :
  0 < b -> ceil_div a b = 1 + ceil_div (a - b) b.
Proof.
  intros Hb. unfold ceil_div.
  replace (- (a - b)) with (- a + 1 * b) by lia.
  rewrite Z.div_add by lia. lia.
Qed.

Lemma ceil_div_pos (a b : Z) : 0 < b -> 0 < a -> 0 < ceil_div a b.
Proof.
  intros Hb Ha. unfold ceil_div.
  assert (- a / b < 0) by (apply Z.div_lt_upper_bound; lia). lia.
Qed.

(** [ceil_div a b] is the least [n] with [a <= n * b]. *)
Lemma ceil_div_spec (a b : Z) :
  0 < b -> (ceil_div a b - 1) * b < a <= ceil_div a b * b.
Proof.
  intros Hb. unfold ceil_div.
  pose proof (Z.div_mod (- a) b ltac:(lia)).
  pose proof (Z.mod_pos_bound (- a) b Hb). nia.
Qed.

Section ConstructionLoop.

Variables (end_date : datetime) (work_start work_end : option time)
          (delta : timedelta).
Hypothesis end_date_valid : valid end_date.

(** With an increment that is not positive the loop, once entered, never
    hands back a dict: it raises or keeps going. *)
Lemma init_loop_nonpositive (fuel : nat) :
  delta <= 0 ->
  forall acc cur d,
    valid cur -> to_us cur < to_us end_date ->
    init_loop fuel end_date work_start work_end delta acc cur <> Some (Ok d).
Proof.
  intros Hd. induction fuel as [|fuel IH]; simpl; intros acc cur d Hc Hlt;
    [discriminate|].
  rewrite (lt_to_us cur end_date Hc end_date_valid).
  assert (E : (to_us cur <? to_us end_date) = true) by (apply Z.ltb_lt; lia).
  rewrite E.
  destruct (add cur delta) as [nxt|e] eqn:Ea; [|discriminate].
  destruct (add_Ok _ _ _ Ea) as [Hv Hu].
  apply IH; [exact Hv | lia].
Qed.

(** What the loop hands back when it hands back a dict. *)
Lemma init_loop_Ok (fuel : nat) :
  0 < delta ->
  forall acc cur d,
    valid cur ->
    (forall k, In k (keys acc) -> to_us k < to_us cur) ->
    init_loop fuel end_date work_start work_end delta acc cur = Some (Ok d) ->
    exists tail,
      d = acc ++ tail /\
      contiguous delta tail cur /\
      Forall (as_constructed work_start work_end) tail /\
      Z.of_nat (List.length tail)
      = Z.max 0 (ceil_div (to_us end_date - to_us cur) delta).
Proof.
  intros Hd. induction fuel as [|fuel IH]; simpl; intros acc cur d Hc Hacc;
    [discriminate|].
  rewrite (lt_to_us cur end_date Hc end_date_valid).
  destruct (to_us cur <? to_us end_date) eqn:E.
  - apply Z.ltb_lt in E.
    destruct (add cur delta) as [nxt|e] eqn:Ea; [|discriminate].
    destruct (add_Ok _ _ _ Ea) as [Hv Hu].
    rewrite dict_set_fresh.
    2:{ intros Hin. apply Hacc in Hin. lia. }
    intros H. apply IH in H; [|exact Hv|].
    2:{ intros k Hin. unfold keys in Hin. rewrite map_app in Hin.
        apply in_app_or in Hin. destruct Hin as [Hin|[<-|[]]].
        - apply Hacc in Hin. lia.
        - simpl. lia. }
    destruct H as (tail & -> & Hch & Hfr & Hlen).
    exists ((cur, new_TimeSlot cur nxt work_start work_end) :: tail).
    assert (Hend : end_time (new_TimeSlot cur nxt work_start work_end) = nxt).
    { unfold new_TimeSlot, post_init.
      destruct work_start, work_end; try reflexivity.
      destruct (negb _); reflexivity. }
    assert (Hst : start_time (new_TimeSlot cur nxt work_start work_end) = cur).
    { unfold new_TimeSlot, post_init.
      destruct work_start, work_end; try reflexivity.
      destruct (negb _); reflexivity. }
    split; [rewrite <- app_assoc; reflexivity|].
    split; [simpl; rewrite Hend; auto|].
    split.
    { constructor; [|exact Hfr]. unfold as_constructed; simpl.
      rewrite Hend. reflexivity. }
    cbn [List.length]. rewrite Nat2Z.inj_succ, Hlen, Hu.
    rewrite (ceil_div_step (to_us end_date - to_us cur) delta Hd).
    replace (to_us end_date - (to_us cur + delta))
      with (to_us end_date - to_us cur - delta) by lia.
    pose proof (ceil_div_pos (to_us end_date - to_us cur) delta Hd ltac:(lia)) as Hp.
    rewrite (ceil_div_step (to_us end_date - to_us cur) delta Hd) in Hp.
    lia.
  - apply Z.ltb_ge in E. intros H; injection H as <-.
    exists []. rewrite app_nil_r. repeat split; [constructor|].
    pose proof (ceil_div_nonpos (to_us end_date - to_us cur) delta Hd ltac:(lia)).
    simpl. lia.
Qed.

(** Enough fuel: the loop stops, with a dict or with an exception. *)
Lemma init_loop_stops (n : nat) :
  0 < delta ->
  forall acc cur,
    valid cur ->
    to_us end_date - to_us cur <= Z.of_nat n * delta ->
    exists r, init_loop (S n) end_date work_start work_end delta acc cur = Some r.
Proof.
  intros Hd. induction n as [|n IH]; intros acc cur Hc Hn.
  - simpl. rewrite (lt_to_us cur end_date Hc end_date_valid).
    assert (E : (to_us cur <? to_us end_date) = false) by (apply Z.ltb_ge; lia).
    rewrite E. eauto.
  - cbn [init_loop]. rewrite (lt_to_us cur end_date Hc end_date_valid).
    destruct (to_us cur <? to_us end_date) eqn:E; [|eauto].
    destruct (add cur delta) as [nxt|e] eqn:Ea; [|eauto].
    destruct (add_Ok _ _ _ Ea) as [Hv Hu].
    apply IH; [exact Hv|]. lia.
Qed.

(** More fuel does not change an answer. *)
Lemma init_loop_fuel (fuel : nat) :
  forall acc cur r,
    init_loop fuel end_date work_start work_end delta acc cur = Some r ->
    forall fuel', (fuel <= fuel')%nat ->
    init_loop fuel' end_date work_start work_end delta acc cur = Some r.
Proof.
  induction fuel as [|fuel IH]; simpl; intros acc cur r H fuel' Hle;
    [discriminate|].
  destruct fuel' as [|fuel']; [lia|]. simpl.
  destruct (lt cur end_date); [|exact H].
  destruct (add cur delta) as [nxt|e]; [|exact H].
  apply (IH _ _ _ H). lia.
Qed.

End ConstructionLoop.

(** ** Contiguous slots *)

Lemma contiguous_keys (delta : timedelta) (d : dict TimeSlot) :
  0 < delta ->
  forall from,
    valid from -> contiguous delta d from ->
    Forall (fun k => valid k /\ to_us from <= to_us k) (keys d).
Proof.
  intros Hd. induction d as [|[k s] rest IH]; simpl; intros from Hv H;
    [constructor|].
  destruct H as (-> & Hst & Ha & Hrest).
  destruct (add_Ok _ _ _ Ha) as [Hve Hu].
  constructor; [split; [exact Hv|lia]|].
  specialize (IH _ Hve Hrest).
  eapply Forall_impl; [|exact IH]. simpl. intros a [Hva Hle]. split; [exact Hva|lia].
Qed.

Lemma contiguous_nth (delta : timedelta) (d : dict TimeSlot) :
  forall from i k s,
    valid from -> contiguous delta d from ->
    nth_error d i = Some (k, s) ->
    valid k /\ start_time s = k /\ add k delta = Ok (end_time s) /\
    valid (end_time s) /\
    to_us k = to_us from + Z.of_nat i * delta.
Proof.
  induction d as [|[k0 s0] rest IH]; intros from i k s Hv H Hn.
  - destruct i; discriminate.
  - simpl in H. destruct H as (-> & Hst & Ha & Hrest).
    destruct (add_Ok _ _ _ Ha) as [Hve Hu].
    destruct i as [|i]; simpl in Hn.
    + injection Hn as <- <-.
      split; [exact Hv|]. split; [exact Hst|]. split; [exact Ha|].
      split; [exact Hve|]. simpl. lia.
    + destruct (IH _ _ _ _ Hve Hrest Hn) as (H1 & H2 & H3 & H4 & H5).
      split; [exact H1|]. split; [exact H2|]. split; [exact H3|].
      split; [exact H4|]. rewrite H5, Hu. lia.
Qed.

Lemma contiguous_ascending (delta : timedelta) (d : dict TimeSlot) :
  0 < delta ->
  forall from,
    valid from -> contiguous delta d from -> ascending (keys d).
Proof.
  intros Hd. induction d as [|[k s] rest IH]; simpl; intros from Hv H; [exact I|].
  destruct H as (-> & Hst & Ha & Hrest).
  destruct (add_Ok _ _ _ Ha) as [Hve Hu].
  split; [|exact (IH _ Hve Hrest)].
  destruct rest as [|[k2 s2] rest2]; simpl; [exact I|].
  simpl in Hrest. destruct Hrest as (-> & _).
  rewrite (lt_to_us _ _ Hv Hve). apply Z.ltb_lt. lia.
Qed.

Lemma contiguous_NoDup (delta : timedelta) (d : dict TimeSlot) :
  0 < delta ->
  forall from,
    valid from -> contiguous delta d from -> NoDup (keys d).
Proof.
  intros Hd. induction d as [|[k s] rest IH]; simpl; intros from Hv H;
    [constructor|].
  destruct H as (-> & Hst & Ha & Hrest).
  destruct (add_Ok _ _ _ Ha) as [Hve Hu].
  constructor; [|exact (IH _ Hve Hrest)].
  intros Hin.
  pose proof (contiguous_keys delta rest Hd _ Hve Hrest) as Hk.
  rewrite Forall_forall in Hk. apply Hk in Hin. lia.
Qed.

Lemma contiguous_get (delta : timedelta) (d : dict TimeSlot) :
  0 < delta ->
  forall from k s,
    valid from -> contiguous delta d from ->
    In (k, s) d -> dict_get d k = Some s.
Proof.
  intros Hd. induction d as [|[k0 s0] rest IH]; simpl; intros from k s Hv H Hin;
    [destruct Hin|].
  destruct H as (-> & Hst & Ha & Hrest).
  destruct (add_Ok _ _ _ Ha) as [Hve Hu].
  destruct Hin as [Hin|Hin].
  - injection Hin as <- <-. rewrite eqb_refl. reflexivity.
  - assert (E : eqb from k = false).
    { apply eqb_neq. intros ->.
      pose proof (contiguous_keys delta rest Hd _ Hve Hrest) as Hk.
      rewrite Forall_forall in Hk.
      assert (Hin' : In k (keys rest))
        by (unfold keys; change k with (fst (k, s)); apply in_map; exact Hin).
      apply Hk in Hin'. lia. }
    rewrite E. exact (IH _ _ _ Hve Hrest Hin).
Qed.

(** ** What the constructor returns *)

Lemma timedelta_minutes_Ok (m : Z) (td : timedelta) :
  timedelta_minutes m = Ok td -> td = increment_us m.
Proof.
  unfold timedelta_minutes, increment_us.
  destruct (in_delta_range _); [|discriminate]. intros H; injection H as <-.
  reflexivity.
Qed.

Lemma Calendar_init_Ok (fuel : nat) (start_date end_date : datetime)
      (work_start work_end : option time) (inc : Z) (c : Calendar) :
  valid start_date -> valid end_date ->
  Calendar_init fuel start_date end_date work_start work_end inc = Some (Ok c) ->
  time_increment_minutes c = inc /\
  time_delta c = increment_us inc /\
  contiguous (time_delta c) (slots c) start_date /\
  Forall (as_constructed work_start work_end) (slots c) /\
  (slots c = [] \/ 1 <= inc) /\
  (1 <= inc ->
   Z.of_nat (List.length (slots c))
   = Z.max 0 (ceil_div (to_us end_date - to_us start_date) (increment_us inc))).
Proof.
  intros Hs He. unfold Calendar_init.
  destruct (timedelta_minutes inc) as [delta|e] eqn:Etd; [|discriminate].
  apply timedelta_minutes_Ok in Etd.
  destruct (init_loop fuel end_date work_start work_end delta [] start_date)
    as [[d|e]|] eqn:El; try discriminate.
  intros H; injection H as <-. simpl.
  destruct (Z_lt_le_dec 0 delta) as [Hpos|Hneg].
  - destruct (init_loop_Ok end_date work_start work_end delta He fuel Hpos
                           [] start_date d Hs ltac:(intros k []) El)
      as (tail & -> & Hch & Hfr & Hlen).
    simpl. repeat split; auto.
    + right. unfold increment_us in Etd. divmod_lia.
    + intros _. rewrite Hlen, Etd. reflexivity.
  - assert (Hd : d = []).
    { destruct fuel as [|fuel]; [discriminate|]. simpl in El.
      destruct (lt start_date end_date) eqn:Elt.
      - exfalso.
        rewrite (lt_to_us _ _ Hs He) in Elt. apply Z.ltb_lt in Elt.
        apply (init_loop_nonpositive end_date work_start work_end delta He
                                     (S fuel) Hneg [] start_date d Hs Elt).
        simpl. rewrite (lt_to_us _ _ Hs He).
        apply Z.ltb_lt in Elt. rewrite Elt. exact El.
      - injection El as <-. reflexivity. }
    subst d. simpl. repeat split; auto.
    intros Hinc. exfalso. unfold increment_us in Etd. divmod_lia.
Qed.

(** The answer of the constructor does not depend on the fuel. *)
Lemma Calendar_init_fuel (fuel fuel' : nat) (start_date end_date : datetime)
      (work_start work_end : option time) (inc : Z) (r : result Calendar) :
  Calendar_init fuel start_date end_date work_start work_end inc = Some r ->
  (fuel <= fuel')%nat ->
  Calendar_init fuel' start_date end_date work_start work_end inc = Some r.
Proof.
  unfold Calendar_init.
  destruct (timedelta_minutes inc) as [delta|e]; [|auto].
  destruct (init_loop fuel end_date work_start work_end delta [] start_date)
    as [r0|] eqn:El; [|discriminate].
  intros H Hle.
  rewrite (init_loop_fuel end_date work_start work_end delta fuel _ _ _ El fuel' Hle).
  exact H.
Qed.

(** ** Rounding with a positive increment *)

Lemma round_positive (c : Calendar) (t : datetime) :
  1 <= time_increment_minutes c -> valid t ->
  let total := hour t * 60 + minute t in
  let q := total - total mod time_increment_minutes c in
  round_to_nearest_slot c t = Ok (mk_datetime (ordinal t) (q / 60) (q mod 60) 0 0).
Proof.
  intros Hinc Hv total q.
  pose proof (Z.mod_pos_bound total (time_increment_minutes c) ltac:(lia)) as Hr.
  assert (Htot : 0 <= total < 1440) by (unfold total, valid in *; lia).
  pose proof (Z.mod_le total (time_increment_minutes c) ltac:(lia) ltac:(lia)) as Hle.
  unfold round_to_nearest_slot, py_mod. fold total.
  assert (E0 : (time_increment_minutes c =? 0) = false) by (apply Z.eqb_neq; lia).
  rewrite E0. cbn [bind].
  unfold q. clear q.
  set (r := total mod time_increment_minutes c) in *.
  unfold timedelta_minutes.
  assert (E1 : in_delta_range (r * US_PER_MINUTE) = true).
  { unfold in_delta_range. apply andb_true_iff.
    split; apply Z.leb_le; divmod_lia. }
  rewrite E1. cbn [bind]. unfold sub, neg.
  assert (E2 : in_delta_range (- (r * US_PER_MINUTE)) = true).
  { unfold in_delta_range. apply andb_true_iff.
    split; apply Z.leb_le; divmod_lia. }
  rewrite E2. cbn [bind].
  destruct t as [o h m s u]. unfold valid in Hv. simpl in Hv.
  unfold total in *. simpl in Htot, Hle, r |- *.
  rewrite add_in_range by (unfold to_us; simpl; divmod_lia).
  cbn [bind]. f_equal.
  unfold replace_second_microsecond, of_us, to_us; simpl.
  f_equal; divmod_lia.
Qed.

Lemma round_positive_valid (c : Calendar) (t r : datetime) :
  1 <= time_increment_minutes c -> valid t ->
  round_to_nearest_slot c t = Ok r ->
  valid r /\ ordinal r = ordinal t /\
  hour r * 60 + minute r
  = (hour t * 60 + minute t)
    - (hour t * 60 + minute t) mod time_increment_minutes c /\
  second r = 0 /\ microsecond r = 0.
Proof.
  intros Hinc Hv. rewrite (round_positive c t Hinc Hv).
  intros H; injection H as <-. simpl.
  pose proof (Z.mod_pos_bound (hour t * 60 + minute t) (time_increment_minutes c)
                              ltac:(lia)) as Hr.
  assert (Htot : 0 <= hour t * 60 + minute t < 1440) by (unfold valid in *; lia).
  pose proof (Z.mod_le (hour t * 60 + minute t) (time_increment_minutes c)
                       ltac:(lia) ltac:(lia)) as Hle.
  set (r := (hour t * 60 + minute t) mod time_increment_minutes c) in *.
  unfold valid in *; simpl.
  repeat split; try lia; divmod_lia.
Qed.

Lemma round_positive_idempotent (c : Calendar) (t r : datetime) :
  1 <= time_increment_minutes c -> valid t ->
  round_to_nearest_slot c t = Ok r ->
  round_to_nearest_slot c r = Ok r.
Proof.
  intros Hinc Hv Hr.
  destruct (round_positive_valid c t r Hinc Hv Hr) as (Hvr & Ho & Hq & Hs & Hu).
  rewrite (round_positive c r Hinc Hvr). f_equal.
  assert (Hm : (hour r * 60 + minute r) mod time_increment_minutes c = 0).
  { rewrite Hq. 
    set (total := hour t * 60 + minute t).
    rewrite Zminus_mod, Z.mod_mod, Z.sub_diag by lia.
    apply Z.mod_0_l. lia. }
  rewrite Hm, Z.sub_0_r.
  destruct r as [o h m s u]. simpl in *. subst s u.
  unfold valid in Hvr; simpl in Hvr.
  f_equal; divmod_lia.
Qed.

Lemma round_positive_le (c : Calendar) (t r : datetime) :
  1 <= time_increment_minutes c -> valid t ->
  round_to_nearest_slot c t = Ok r ->
  le r t = true.
Proof.
  intros Hinc Hv Hr.
  destruct (round_positive_valid c t r Hinc Hv Hr) as (Hvr & Ho & Hq & Hs & Hu).
  rewrite (le_to_us r t Hvr Hv). apply Z.leb_le.
  pose proof (Z.mod_pos_bound (hour t * 60 + minute t) (time_increment_minutes c)
                              ltac:(lia)) as Hb.
  set (x := (hour t * 60 + minute t) mod time_increment_minutes c) in *.
  unfold to_us. rewrite Hs, Hu, Ho. unfold valid in Hv. divmod_lia.
Qed.

(** ** Booking *)

Lemma round_set_slots (c : Calendar) (d : dict TimeSlot) (t : datetime) :
  round_to_nearest_slot (set_slots c d) t = round_to_nearest_slot c t.
Proof. reflexivity. Qed.

(** The two ways [book_slot] can return. *)
Lemma book_slot_inv (c c' : Calendar) (t : datetime) (s : string) (b : bool) :
  book_slot c t s = Ok (b, c') ->
  (b = false /\ c' = c /\
   exists r, round_to_nearest_slot c t = Ok r /\
             match dict_get (slots c) r with
             | Some slot => status slot <> available
             | None => True
             end)
  \/
  (b = true /\
   exists r slot,
     round_to_nearest_slot c t = Ok r /\
     dict_get (slots c) r = Some slot /\
     status slot = available /\
     c' = set_slots c (dict_set (slots c) r (set_title (set_status slot busy) s))).
Proof.
  unfold book_slot, get_slot_at.
  destruct (round_to_nearest_slot c t) as [r|e] eqn:Er; cbn [bind]; [|discriminate].
  destruct (dict_get (slots c) r) as [slot|] eqn:Eg.
  - destruct (String.eqb (status slot) available) eqn:Es.
    + cbn [bind]. intros H; injection H as <- <-. right.
      split; [reflexivity|]. exists r, slot.
      apply String.eqb_eq in Es. auto.
    + intros H; injection H as <- <-. left.
      split; [reflexivity|]. split; [reflexivity|]. exists r.
      split; [reflexivity|]. rewrite Eg. apply String.eqb_neq. exact Es.
  - intros H; injection H as <- <-. left.
    split; [reflexivity|]. split; [reflexivity|]. exists r.
    split; [reflexivity|]. rewrite Eg. exact I.
Qed.

Lemma step_increment (c : Calendar) (o : op) :
  time_increment_minutes (step c o) = time_increment_minutes c /\
  time_delta (step c o) = time_delta c.
Proof.
  destruct o as [t|t|d|t s]; simpl; auto.
  destruct (book_slot c t s) as [[b c']|e] eqn:E; auto.
  apply book_slot_inv in E.
  destruct E as [(_ & -> & _)|(_ & r & slot & _ & _ & _ & ->)]; auto.
Qed.

Lemma step_keys (c : Calendar) (o : op) :
  keys (slots (step c o)) = keys (slots c).
Proof.
  destruct o as [t|t|d|t s]; simpl; auto.
  destruct (book_slot c t s) as [[b c']|e] eqn:E; auto.
  apply book_slot_inv in E.
  destruct E as [(_ & -> & _)|(_ & r & slot & _ & Hg & _ & ->)]; auto.
  simpl. apply keys_dict_set_present. exact (dict_get_keys _ _ _ Hg).
Qed.

Lemma well_keyed_dict_set (d : dict TimeSlot) (k : datetime) (v : TimeSlot) :
  well_keyed d -> start_time v = k -> well_keyed (dict_set d k v).
Proof.
  unfold well_keyed. intros Hd Hv.
  induction d as [|[k' v'] rest IH]; simpl.
  - constructor; [exact Hv|constructor].
  - inversion Hd as [|x l Hx Hl]; subst x l.
    destruct (eqb k' k) eqn:E.
    + apply eqb_eq in E. subst k'. constructor; [exact Hv|exact Hl].
    + constructor; [exact Hx|exact (IH Hl)].
Qed.

Lemma well_keyed_get (d : dict TimeSlot) (k : datetime) (v : TimeSlot) :
  well_keyed d -> dict_get d k = Some v -> start_time v = k.
Proof.
  intros Hd Hg. apply dict_get_In in Hg.
  unfold well_keyed in Hd. rewrite Forall_forall in Hd.
  exact (Hd _ Hg).
Qed.

Lemma step_well_keyed (c : Calendar) (o : op) :
  well_keyed (slots c) -> well_keyed (slots (step c o)).
Proof.
  intros Hw. destruct o as [t|t|d|t s]; simpl; auto.
  destruct (book_slot c t s) as [[b c']|e] eqn:E; auto.
  apply book_slot_inv in E.
  destruct E as [(_ & -> & _)|(_ & r & slot & _ & Hg & _ & ->)]; auto.
  simpl. apply well_keyed_dict_set; [exact Hw|].
  simpl. exact (well_keyed_get _ _ _ Hw Hg).
Qed.

Lemma run_keys (ops : list op) :
  forall c, keys (slots (run c ops)) = keys (slots c).
Proof.
  unfold run. induction ops as [|o ops IH]; simpl; intros c; [reflexivity|].
  rewrite IH. apply step_keys.
Qed.

Lemma run_well_keyed (ops : list op) :
  forall c, well_keyed (slots c) -> well_keyed (slots (run c ops)).
Proof.
  unfold run. induction ops as [|o ops IH]; simpl; intros c H; [exact H|].
  apply IH. apply step_well_keyed. exact H.
Qed.

Lemma run_increment (ops : list op) :
  forall c, time_increment_minutes (run c ops) = time_increment_minutes c.
Proof.
  unfold run. induction ops as [|o ops IH]; simpl; intros c; [reflexivity|].
  rewrite IH. apply step_increment.
Qed.

(** One operation leaves a busy slot busy. *)
Lemma step_busy (c : Calendar) (o : op) (k : datetime) (slot : TimeSlot) :
  dict_get (slots c) k = Some slot -> status slot = busy ->
  exists slot', dict_get (slots (step c o)) k = Some slot' /\ status slot' = busy.
Proof.
  intros Hg Hb. destruct o as [t|t|d|t s]; simpl; eauto.
  destruct (book_slot c t s) as [[b c']|e] eqn:E; eauto.
  apply book_slot_inv in E.
  destruct E as [(_ & -> & _)|(_ & r & slot0 & _ & Hg0 & _ & ->)]; eauto.
  simpl. destruct (eqb r k) eqn:Ek.
  - apply eqb_eq in Ek. subst r. rewrite dict_get_set_same.
    eexists; split; [reflexivity|reflexivity].
  - apply eqb_neq in Ek. rewrite dict_get_set_other by congruence. eauto.
Qed.

Lemma first_hour_constructed :
  Calendar_init 3 (on_2024_01_01 0 0) (on_2024_01_01 1 0)
                (Some (clock 0 0)) (Some (clock 23 59)) 30
  = Some (Ok first_hour).
Proof. vm_compute. reflexivity. Qed.



(** C8. A slot that is 'busy' stays 'busy' through any sequence of calendar
    operations: it is still stored under its start time, and its status is
    still 'busy'.  This covers slots made busy by the constructor and slots
    made busy by a successful booking. *)
Theorem busy_is_stable (c : Calendar) (ops : list op) (k : datetime)
        (slot : TimeSlot) :
  dict_get (slots c) k = Some slot -> status slot = busy ->
  exists slot',
    dict_get (slots (run c ops)) k = Some slot' /\ status slot' = busy.
Proof.
  revert c slot. unfold run.
  induction ops as [|o ops IH]; simpl; intros c slot Hg Hb; [eauto|].
  destruct (step_busy c o k slot Hg Hb) as (slot1 & Hg1 & Hb1).
  exact (IH _ _ Hg1 Hb1).
Qed.

Lemma first_hour_outside_work_constructed :
  Calendar_init 3 (on_2024_01_01 0 0) (on_2024_01_01 1 0)
                (Some (clock 9 0)) (Some (clock 17 0)) 30
  = Some (Ok first_hour_outside_work).
Proof. vm_compute. reflexivity. Qed.

(** The 00:00 slot, busy since construction, is still busy after an attempt
    to book it and the other operations. *)
Lemma busy_is_stable_witness :
  exists slot',
    dict_get
      (slots (run first_hour_outside_work
                  [OpBookSlot (on_2024_01_01 0 0) "standup";
                   OpRound (on_2024_01_01 0 5);
                   OpGetSlotAt (on_2024_01_01 0 5);
                   OpGetSlotsForDay 738886;
                   OpBookSlot (on_2024_01_01 0 10) "x"]))
      (on_2024_01_01 0 0)
    = Some slot' /\ status slot' = busy.
Proof.
  apply (busy_is_stable first_hour_outside_work _ (on_2024_01_01 0 0)
           (mk_TimeSlot (on_2024_01_01 0 0) (on_2024_01_01 0 30) busy None None []));
    reflexivity.
Defined.

(** ** Calendars in use *)

Lemma ascending_valid_cons (l : list datetime) :
  forall a,
    Forall valid (a :: l) ->
    (ascending (a :: l) <-> Forall (fun b => to_us a < to_us b) l /\ ascending l).
Proof.
  induction l as [|b l IH]; intros a Hv.
  - simpl. split; [intros _; split; [constructor|exact I]|auto].
  - inversion Hv as [|x y Ha Hbl]; subst x y.
    inversion Hbl as [|x y Hb Hl]; subst x y.
    change (ascending (a :: b :: l)) with (lt a b = true /\ ascending (b :: l)).
    rewrite (lt_to_us a b Ha Hb), Z.ltb_lt.
    split.
    + intros [Hab Hasc]. split; [|exact Hasc].
      constructor; [exact Hab|].
      apply (IH b Hbl) in Hasc. destruct Hasc as [Hall _].
      eapply Forall_impl; [|exact Hall]. simpl. intros; lia.
    + intros [Hall Hasc]. split; [|exact Hasc].
      inversion Hall; assumption.
Qed.

Lemma ascending_filter (f : datetime -> bool) (l : list datetime) :
  Forall valid l -> ascending l -> ascending (filter f l).
Proof.
  induction l as [|a l IH]; intros Hv Hasc; [exact I|].
  apply (ascending_valid_cons l a Hv) in Hasc. destruct Hasc as [Hall Hasc].
  inversion Hv as [|x y Ha Hl]; subst x y.
  specialize (IH Hl Hasc).
  simpl. destruct (f a); [|exact IH].
  apply ascending_valid_cons.
  - constructor; [exact Ha|].
    rewrite Forall_forall in *. intros x Hx. apply filter_In in Hx. apply Hl, Hx.
  - split; [|exact IH].
    rewrite Forall_forall in *. intros x Hx. apply filter_In in Hx. apply Hall, Hx.
Qed.

Lemma lt_ordinal (a b : datetime) : lt a b = true -> ordinal a <= ordinal b.
Proof.
  unfold lt, fields. simpl.
  destruct (Z.compare_spec (ordinal a) (ordinal b)); first [lia | discriminate].
Qed.

Lemma ascending_ordinal (l : list datetime) :
  forall a, ascending (a :: l) -> Forall (fun b => ordinal a <= ordinal b) l.
Proof.
  induction l as [|b l IH]; intros a H; [constructor|].
  change (ascending (a :: b :: l)) with (lt a b = true /\ ascending (b :: l)) in H.
  destruct H as [Hab Hasc]. apply lt_ordinal in Hab.
  constructor; [exact Hab|].
  eapply Forall_impl; [|exact (IH b Hasc)]. simpl. intros; lia.
Qed.

(** On a dict in ascending key order the loop with its [break] selects the
    entries of the day. *)
Lemma slots_for_day_loop_filter (d : dict TimeSlot) (day : date) :
  ascending (keys d) ->
  slots_for_day_loop d day
  = map snd (filter (fun kv => date_of (fst kv) =? day) d).
Proof.
  induction d as [|[k s] rest IH]; intros Hasc; [reflexivity|].
  assert (Hrest : ascending (keys rest)) by (destruct Hasc; assumption).
  simpl. destruct (date_of k =? day) eqn:E.
  - simpl. f_equal. exact (IH Hrest).
  - destruct (date_of k >? day) eqn:G; [|exact (IH Hrest)].
    pose proof (ascending_ordinal (keys rest) k Hasc) as Hall.
    clear IH Hasc Hrest. symmetry.
    induction rest as [|[k2 s2] rest2 IH2]; [reflexivity|].
    simpl in Hall |- *. inversion Hall as [|x y Hk2 Hr2]; subst x y.
    assert (E2 : (date_of k2 =? day) = false).
    { apply Z.eqb_neq. unfold date_of in *. apply Z.gtb_lt in G. lia. }
    rewrite E2. exact (IH2 Hr2).
Qed.

Lemma well_keyed_filter (d : dict TimeSlot) (f : datetime -> bool) :
  well_keyed d ->
  map snd (filter (fun kv => f (fst kv)) d)
  = filter (fun s => f (start_time s)) (values d) /\
  map start_time (filter (fun s => f (start_time s)) (values d))
  = filter f (keys d).
Proof.
  unfold well_keyed. induction d as [|[k s] rest IH]; intros H; [split; reflexivity|].
  inversion H as [|x y Hk Hr]; subst x y. simpl in Hk.
  destruct (IH Hr) as [IH1 IH2]. simpl. rewrite Hk.
  destruct (f k); simpl; rewrite ?IH1, ?IH2, ?Hk; split; reflexivity.
Qed.

Lemma contiguous_well_keyed (delta : timedelta) (d : dict TimeSlot) :
  forall from, contiguous delta d from -> well_keyed d.
Proof.
  unfold well_keyed.
  induction d as [|[k s] rest IH]; simpl; intros from H; [constructor|].
  destruct H as (_ & Hst & _ & Hrest).
  constructor; [exact Hst|exact (IH _ Hrest)].
Qed.

Lemma increment_us_pos (inc : Z) : 1 <= inc -> 0 < increment_us inc.
Proof. unfold increment_us. intros H. divmod_lia. Qed.

(** What holds of every calendar object. *)
Lemma constructed_invariant (c : Calendar) :
  constructed c ->
  ascending (keys (slots c)) /\ Forall valid (keys (slots c)) /\
  well_keyed (slots c) /\
  (slots c = [] \/ 1 <= time_increment_minutes c).
Proof.
  intros (fuel & sd & ed & ws & we & inc & c0 & ops & Hs & He & Hinit & ->).
  destruct (Calendar_init_Ok _ _ _ _ _ _ _ Hs He Hinit)
    as (Hinc & Hdelta & Hch & _ & Hcase & _).
  rewrite run_keys, run_increment.
  split; [|split; [|split]].
  - destruct Hcase as [E|Hpos]; [rewrite E; exact I|].
    rewrite Hdelta in Hch.
    exact (contiguous_ascending _ _ (increment_us_pos _ Hpos) _ Hs Hch).
  - destruct Hcase as [E|Hpos]; [rewrite E; constructor|].
    rewrite Hdelta in Hch.
    pose proof (contiguous_keys _ _ (increment_us_pos _ Hpos) _ Hs Hch) as Hk.
    eapply Forall_impl; [|exact Hk]. simpl. intros a [Ha _]. exact Ha.
  - apply run_well_keyed. exact (contiguous_well_keyed _ _ _ Hch).
  - destruct Hcase as [E|Hpos]; [left|right; lia].
    assert (Hk : keys (slots (run c0 ops)) = []) by (rewrite run_keys, E; reflexivity).
    destruct (slots (run c0 ops)); [reflexivity|discriminate].
Qed.

(** C7. On every calendar, [get_slots_for_day(d)] returns exactly the slots
    of the collection whose start time is on date [d], in the order of the
    collection, which is ascending start time; when no slot starts on [d]
    it returns the empty list. *)
Theorem get_slots_for_day_spec (c : Calendar) (day : date) :
  constructed c ->
  get_slots_for_day c day
  = filter (fun slot => date_of (start_time slot) =? day) (values (slots c)) /\
  ascending (map start_time (get_slots_for_day c day)) /\
  ((forall slot, In slot (values (slots c)) -> date_of (start_time slot) <> day) ->
   get_slots_for_day c day = []).
Proof.
  intros Hc.
  destruct (constructed_invariant c Hc) as (Hasc & Hv & Hw & _).
  destruct (well_keyed_filter (slots c) (fun k => date_of k =? day) Hw) as [F1 F2].
  assert (E : get_slots_for_day c day
              = filter (fun slot => date_of (start_time slot) =? day)
                       (values (slots c))).
  { unfold get_slots_for_day.
    rewrite (slots_for_day_loop_filter _ _ Hasc). exact F1. }
  split; [exact E|]. split.
  - rewrite E, F2. exact (ascending_filter _ _ Hv Hasc).
  - rewrite E. generalize (values (slots c)).
    intros l. induction l as [|s l IH]; intros Hnone; [reflexivity|].
    simpl. assert (Es : (date_of (start_time s) =? day) = false).
    { apply Z.eqb_neq. apply Hnone. left. reflexivity. }
    rewrite Es. apply IH. intros slot Hin. apply Hnone. right. exact Hin.
Qed.

Lemma night_shift_constructed :
  Calendar_init 5 (on_2024_01_01 23 0) (on_2024_01_02 1 0)
                (Some (clock 17 0)) (Some (clock 9 0)) 30
  = Some (Ok night_shift).
Proof. vm_compute. reflexivity. Qed.

(** On the calendar around the midnight after 2024-01-01, the slots of
    2024-01-01 are the first two. *)
Lemma get_slots_for_day_spec_witness :
  get_slots_for_day night_shift 738886
  = filter (fun slot => date_of (start_time slot) =? 738886)
           (values (slots night_shift)) /\
  ascending (map start_time (get_slots_for_day night_shift 738886)) /\
  ((forall slot, In slot (values (slots night_shift)) ->
                 date_of (start_time slot) <> 738886) ->
   get_slots_for_day night_shift 738886 = []).
Proof.
  apply get_slots_for_day_spec.
  exists 5%nat, (on_2024_01_01 23 0), (on_2024_01_02 1 0),
    (Some (clock 17 0)), (Some (clock 9 0)), 30, night_shift, [].
  split; [concrete_valid|].
  split; [concrete_valid|].
  split; [vm_compute; reflexivity|reflexivity].
Defined.

(** ** Working hours *)

Lemma valid_time_of (d : datetime) : valid d -> valid_time (time_of d).
Proof. unfold valid, valid_time. simpl. tauto. Qed.

Lemma time_ge_us (a b : time) :
  valid_time a -> valid_time b ->
  time_ge a b = true <-> time_us b <= time_us a.
Proof.
  intros Ha Hb. unfold time_ge. rewrite (time_cmp_us a b Ha Hb).
  destruct (Z.compare_spec (time_us a) (time_us b)); split; intros; try lia;
    try reflexivity; discriminate.
Qed.

Lemma time_le_us (a b : time) :
  valid_time a -> valid_time b ->
  time_le a b = true <-> time_us a <= time_us b.
Proof.
  intros Ha Hb. unfold time_le. rewrite (time_cmp_us a b Ha Hb).
  destruct (Z.compare_spec (time_us a) (time_us b)); split; intros; try lia;
    try reflexivity; discriminate.
Qed.

Lemma time_gt_us (a b : time) :
  valid_time a -> valid_time b ->
  time_gt a b = true <-> time_us b < time_us a.
Proof.
  intros Ha Hb. unfold time_gt. rewrite (time_cmp_us a b Ha Hb).
  destruct (Z.compare_spec (time_us a) (time_us b)); split; intros; try lia;
    try reflexivity; discriminate.
Qed.

Lemma midnight_le (t0 we : time) :
  valid_time we -> t0 = mk_time 0 0 0 0 -> time_le t0 we = true.
Proof.
  intros Hv ->. destruct we as [h m s u]. unfold valid_time in Hv. simpl in Hv.
  unfold time_le, time_fields. simpl.
  destruct h as [|p|p]; [|reflexivity|lia].
  destruct m as [|p|p]; [|reflexivity|lia].
  destruct s as [|p|p]; [|reflexivity|lia].
  destruct u as [|p|p]; [reflexivity|reflexivity|lia].
Qed.

Lemma new_TimeSlot_status (sd ed : datetime) (ws we : time) :
  status (new_TimeSlot sd ed (Some ws) (Some we))
  = if time_ge (time_of sd) ws && time_le (time_of ed) we
    then available else busy.
Proof.
  unfold new_TimeSlot, post_init, is_during_workday. simpl.
  destruct (time_ge (time_of sd) ws && time_le (time_of ed) we); reflexivity.
Qed.

Lemma dict_set_keys_eq {V W : Type} (d1 : dict V) (d2 : dict W)
      (k : datetime) (v : V) (w : W) :
  keys d1 = keys d2 -> keys (dict_set d1 k v) = keys (dict_set d2 k w).
Proof.
  revert d2. induction d1 as [|[k1 v1] r1 IH]; intros [|[k2 w2] r2] H;
    simpl in H; try discriminate; [reflexivity|].
  injection H as -> Hr. simpl.
  destruct (eqb k2 k); simpl; f_equal; auto.
Qed.

(** Whether the loop returns, raises or keeps going, and the keys it leaves,
    do not depend on the working hours. *)
Lemma init_loop_working_hours (end_date : datetime) (ws1 we1 ws2 we2 : option time)
      (delta : timedelta) (fuel : nat) :
  forall acc1 acc2 cur,
    keys acc1 = keys acc2 ->
    match init_loop fuel end_date ws1 we1 delta acc1 cur,
          init_loop fuel end_date ws2 we2 delta acc2 cur with
    | None, None => True
    | Some (Raise e1), Some (Raise e2) => e1 = e2
    | Some (Ok d1), Some (Ok d2) => keys d1 = keys d2
    | _, _ => False
    end.
Proof.
  induction fuel as [|fuel IH]; simpl; intros acc1 acc2 cur Hk; [exact I|].
  destruct (lt cur end_date); [|exact Hk].
  destruct (add cur delta) as [nxt|e]; [|reflexivity].
  apply IH. apply dict_set_keys_eq. exact Hk.
Qed.

Lemma In_values_nth (d : dict TimeSlot) (slot : TimeSlot) :
  In slot (values d) -> exists i k, nth_error d i = Some (k, slot).
Proof.
  unfold values. intros H. apply in_map_iff in H.
  destruct H as ([k s] & Hs & Hin). simpl in Hs. subst s.
  apply In_nth_error in Hin. destruct Hin as [i Hi]. eauto.
Qed.

(** C6, amended.  With [work_start > work_end], [is_during_workday] is
    false for every slot whose end time of day is not before its start time
    of day, that is, every slot that does not run up to or across midnight.
    A calendar built with such a pair has every such slot 'busy', and the
    pair changes nothing in whether construction returns, raises or keeps
    going, nor in the keys it generates. *)
Theorem overnight_window_spec (ws we : time) :
  valid_time ws -> valid_time we -> time_gt ws we = true ->
  (forall slot,
      valid (start_time slot) -> valid (end_time slot) ->
      time_le (time_of (start_time slot)) (time_of (end_time slot)) = true ->
      is_during_workday slot ws we = false)
  /\
  (forall fuel sd ed inc c,
      valid sd -> valid ed ->
      Calendar_init fuel sd ed (Some ws) (Some we) inc = Some (Ok c) ->
      forall slot,
        In slot (values (slots c)) ->
        time_le (time_of (start_time slot)) (time_of (end_time slot)) = true ->
        status slot = busy)
  /\
  (forall fuel sd ed inc,
      match Calendar_init fuel sd ed None None inc,
            Calendar_init fuel sd ed (Some ws) (Some we) inc with
      | None, None => True
      | Some (Raise e1), Some (Raise e2) => e1 = e2
      | Some (Ok c1), Some (Ok c2) => keys (slots c1) = keys (slots c2)
      | _, _ => False
      end).
Proof.
  intros Hws Hwe Hgt.
  apply (time_gt_us ws we Hws Hwe) in Hgt.
  assert (Hfalse : forall sd ed,
             valid sd -> valid ed ->
             time_le (time_of sd) (time_of ed) = true ->
             time_ge (time_of sd) ws && time_le (time_of ed) we = false).
  { intros sd ed Hs He Hle.
    apply (time_le_us _ _ (valid_time_of _ Hs) (valid_time_of _ He)) in Hle.
    destruct (time_ge (time_of sd) ws) eqn:E1; [|reflexivity].
    destruct (time_le (time_of ed) we) eqn:E2; [|reflexivity].
    apply (time_ge_us _ _ (valid_time_of _ Hs) Hws) in E1.
    apply (time_le_us _ _ (valid_time_of _ He) Hwe) in E2. lia. }
  split; [|split].
  - intros slot Hs He Hle. unfold is_during_workday. exact (Hfalse _ _ Hs He Hle).
  - intros fuel sd ed inc c Hs He Hinit slot Hin Hle.
    destruct (Calendar_init_Ok _ _ _ _ _ _ _ Hs He Hinit)
      as (_ & _ & Hch & Hfr & _ & _).
    destruct (In_values_nth _ _ Hin) as (i & k & Hn).
    destruct (contiguous_nth _ _ _ _ _ _ Hs Hch Hn) as (Hk & Hst & _ & Hve & _).
    rewrite Forall_forall in Hfr.
    pose proof (Hfr _ (nth_error_In _ _ Hn)) as Hnew.
    unfold as_constructed in Hnew. cbn [fst snd] in Hnew.
    assert (Hs' : status slot
                  = status (new_TimeSlot k (end_time slot) (Some ws) (Some we)))
      by (rewrite <- Hnew; reflexivity).
    rewrite Hst in Hle.
    rewrite Hs', new_TimeSlot_status, (Hfalse _ _ Hk Hve Hle). reflexivity.
  - intros fuel sd ed inc. unfold Calendar_init.
    destruct (timedelta_minutes inc) as [delta|e]; [|reflexivity].
    pose proof (init_loop_working_hours ed None None (Some ws) (Some we) delta
                                        fuel [] [] sd eq_refl) as H.
    destruct (init_loop fuel ed None None delta [] sd) as [[d1|e1]|];
      destruct (init_loop fuel ed (Some ws) (Some we) delta [] sd) as [[d2|e2]|];
      simpl; auto.
Qed.

(** Working hours 17:00 to 09:00 and the slot from 00:00 to 00:30: it is
    outside the workday. *)
Lemma overnight_window_spec_witness :
  is_during_workday
    (mk_TimeSlot (on_2024_01_01 0 0) (on_2024_01_01 0 30) available None None [])
    (clock 17 0) (clock 9 0)
  = false.
Proof.
  refine (proj1 (overnight_window_spec (clock 17 0) (clock 9 0) _ _ _)
                (mk_TimeSlot (on_2024_01_01 0 0) (on_2024_01_01 0 30)
                             available None None [])
                _ _ _).
  - concrete_valid.
  - concrete_valid.
  - reflexivity.
  - concrete_valid.
  - concrete_valid.
  - reflexivity.
Defined.

(** C6 as stated fails: with working hours 17:00 to 09:00, the slot from
    23:30 to midnight is classified in the workday and is built
    'available'. *)
Lemma overnight_window_counterexample :
  time_gt (clock 17 0) (clock 9 0) = true /\
  Calendar_init 5 (on_2024_01_01 23 0) (on_2024_01_02 1 0)
                (Some (clock 17 0)) (Some (clock 9 0)) 30
  = Some (Ok night_shift) /\
  exists slot,
    dict_get (slots night_shift) (on_2024_01_01 23 30) = Some slot /\
    start_time slot = on_2024_01_01 23 30 /\
    end_time slot = on_2024_01_02 0 0 /\
    is_during_workday slot (clock 17 0) (clock 9 0) = true /\
    status slot = available.
Proof.
  split; [reflexivity|]. split; [exact night_shift_constructed|].
  eexists. split; [reflexivity|]. repeat split.
Qed.

(** C10. A slot that ends exactly at midnight passes the end-of-slot check
    for every [work_end], so it is in the workday, and built 'available',
    exactly when its start time of day is at or after [work_start]. *)
Theorem midnight_end_spec (ws we : time) (slot : TimeSlot) :
  valid_time we ->
  time_of (end_time slot) = mk_time 0 0 0 0 ->
  time_le (time_of (end_time slot)) we = true /\
  is_during_workday slot ws we = time_ge (time_of (start_time slot)) ws /\
  (status (new_TimeSlot (start_time slot) (end_time slot) (Some ws) (Some we))
   = available
   <-> time_ge (time_of (start_time slot)) ws = true).
Proof.
  intros Hwe Hmid.
  pose proof (midnight_le _ we Hwe Hmid) as Hle.
  split; [exact Hle|]. split.
  - unfold is_during_workday. rewrite Hle. apply andb_true_r.
  - rewrite new_TimeSlot_status, Hle, andb_true_r.
    destruct (time_ge (time_of (start_time slot)) ws); split; intros H;
      try reflexivity; discriminate.
Qed.

(** The slot from 23:30 to midnight with working hours 09:00 to 17:00: it
    counts as within the workday. *)
Lemma midnight_end_spec_witness :
  time_le (time_of (on_2024_01_02 0 0)) (clock 17 0) = true /\
  is_during_workday
    (mk_TimeSlot (on_2024_01_01 23 30) (on_2024_01_02 0 0) available None None [])
    (clock 9 0) (clock 17 0)
  = time_ge (time_of (on_2024_01_01 23 30)) (clock 9 0) /\
  (status (new_TimeSlot (on_2024_01_01 23 30) (on_2024_01_02 0 0)
                        (Some (clock 9 0)) (Some (clock 17 0)))
   = available
   <-> time_ge (time_of (on_2024_01_01 23 30)) (clock 9 0) = true).
Proof.
  apply (midnight_end_spec
           (clock 9 0) (clock 17 0)
           (mk_TimeSlot (on_2024_01_01 23 30) (on_2024_01_02 0 0)
                        available None None [])).
  - concrete_valid.
  - reflexivity.
Defined.

(** ** Whether construction returns *)

Section ConstructionOutcome.

Variables (end_date : datetime) (work_start work_end : option time).
Hypothesis end_date_valid : valid end_date.

(** The loop raises nothing but [OverflowError]. *)
Lemma init_loop_raises (delta : timedelta) (fuel : nat) :
  forall acc cur ex,
    init_loop fuel end_date work_start work_end delta acc cur = Some (Raise ex) ->
    ex = OverflowError.
Proof.
  induction fuel as [|fuel IH]; simpl; intros acc cur ex H; [discriminate|].
  destruct (lt cur end_date); [|discriminate].
  destruct (add cur delta) as [nxt|e] eqn:Ea; [exact (IH _ _ _ H)|].
  injection H as <-. unfold add in Ea.
  destruct (_ && _); [discriminate|]. injection Ea as <-. reflexivity.
Qed.

(** With a positive increment and every slot end representable, the loop
    returns a dict after one round per slot. *)
Lemma init_loop_succeeds (delta : timedelta) (n : nat) :
  0 < delta ->
  forall acc cur,
    valid cur ->
    Z.of_nat n = Z.max 0 (ceil_div (to_us end_date - to_us cur) delta) ->
    to_us cur + Z.of_nat n * delta < (MAXORDINAL + 1) * US_PER_DAY ->
    exists d,
      init_loop (S n) end_date work_start work_end delta acc cur = Some (Ok d).
Proof.
  intros Hd. induction n as [|n IH]; intros acc cur Hc Hn Hmax.
  - simpl. rewrite (lt_to_us cur end_date Hc end_date_valid).
    assert (E : (to_us cur <? to_us end_date) = false).
    { apply Z.ltb_ge.
      destruct (Z_lt_le_dec (to_us cur) (to_us end_date)) as [Hlt|Hge]; [|lia].
      pose proof (ceil_div_pos (to_us end_date - to_us cur) delta Hd ltac:(lia)).
      simpl in Hn. lia. }
    rewrite E. eauto.
  - cbn [init_loop]. rewrite (lt_to_us cur end_date Hc end_date_valid).
    destruct (to_us cur <? to_us end_date) eqn:E; [|eauto].
    apply Z.ltb_lt in E.
    pose proof (valid_range cur Hc) as Hr.
    rewrite Nat2Z.inj_succ in Hn, Hmax.
    rewrite add_in_range by nia.
    apply IH.
    + assert (Ha : add cur delta = Ok (of_us (to_us cur + delta)))
        by (apply add_in_range; nia).
      exact (proj1 (add_Ok _ _ _ Ha)).
    + rewrite to_us_of_us.
      rewrite (ceil_div_step (to_us end_date - to_us cur) delta Hd) in Hn.
      replace (to_us end_date - (to_us cur + delta))
        with (to_us end_date - to_us cur - delta) by lia.
      lia.
    + rewrite to_us_of_us. lia.
Qed.

(** With a negative increment the loop walks back to the first day and
    stops there at the latest. *)
Lemma init_loop_stops_negative (delta : timedelta) (n : nat) :
  delta < 0 ->
  forall acc cur,
    valid cur ->
    to_us cur < Z.of_nat n * (- delta) + US_PER_DAY ->
    exists r, init_loop (S n) end_date work_start work_end delta acc cur = Some r.
Proof.
  intros Hd. induction n as [|n IH]; intros acc cur Hc Hn.
  - pose proof (valid_range cur Hc). simpl in Hn. lia.
  - cbn [init_loop]. destruct (lt cur end_date); [|eauto].
    destruct (add cur delta) as [nxt|e] eqn:Ea; [|eauto].
    destruct (add_Ok _ _ _ Ea) as [Hv Hu].
    apply IH; [exact Hv|]. rewrite Nat2Z.inj_succ in Hn. lia.
Qed.

(** With increment 0 the loop, once entered, never stops. *)
Lemma init_loop_zero (fuel : nat) :
  forall acc cur,
    valid cur -> to_us cur < to_us end_date ->
    init_loop fuel end_date work_start work_end 0 acc cur = None.
Proof.
  induction fuel as [|fuel IH]; simpl; intros acc cur Hc Hlt; [reflexivity|].
  rewrite (lt_to_us cur end_date Hc end_date_valid).
  assert (E : (to_us cur <? to_us end_date) = true) by (apply Z.ltb_lt; lia).
  rewrite E.
  pose proof (valid_range cur Hc) as Hr.
  rewrite add_in_range by lia.
  rewrite Z.add_0_r, (of_us_to_us cur Hc).
  apply IH; assumption.
Qed.

End ConstructionOutcome.

Lemma Calendar_init_unique (fuel1 fuel2 : nat) (start_date end_date : datetime)
      (work_start work_end : option time) (inc : Z) (r1 r2 : result Calendar) :
  Calendar_init fuel1 start_date end_date work_start work_end inc = Some r1 ->
  Calendar_init fuel2 start_date end_date work_start work_end inc = Some r2 ->
  r1 = r2.
Proof.
  intros H1 H2.
  apply (Calendar_init_fuel _ (Nat.max fuel1 fuel2)) in H1; [|apply Nat.le_max_l].
  apply (Calendar_init_fuel _ (Nat.max fuel1 fuel2)) in H2; [|apply Nat.le_max_r].
  congruence.
Qed.

Lemma Calendar_init_raises (fuel : nat) (start_date end_date : datetime)
      (work_start work_end : option time) (inc : Z) (ex : exn) :
  Calendar_init fuel start_date end_date work_start work_end inc = Some (Raise ex) ->
  ex = OverflowError.
Proof.
  unfold Calendar_init, timedelta_minutes.
  destruct (in_delta_range _).
  - destruct (init_loop _ _ _ _ _ _ _) as [[d|e]|] eqn:El; try discriminate.
    intros H; injection H as <-. exact (init_loop_raises _ _ _ _ _ _ _ _ El).
  - intros H; injection H as <-. reflexivity.
Qed.

(** Construction stops unless the increment is 0 and the range is not
    empty. *)
Lemma Calendar_init_stops (start_date end_date : datetime)
      (work_start work_end : option time) (inc : Z) :
  valid start_date -> valid end_date ->
  inc <> 0 \/ lt start_date end_date = false ->
  exists fuel r,
    Calendar_init fuel start_date end_date work_start work_end inc = Some r.
Proof.
  intros Hs He Hcase. unfold Calendar_init.
  destruct (timedelta_minutes inc) as [delta|e] eqn:Etd; [|exists 0%nat; eauto].
  apply timedelta_minutes_Ok in Etd.
  assert (Hloop : exists fuel r,
             init_loop fuel end_date work_start work_end delta [] start_date
             = Some r).
  { destruct (lt start_date end_date) eqn:Elt.
    - destruct Hcase as [Hinc|?]; [|discriminate].
      destruct (Z_lt_le_dec 0 delta) as [Hpos|Hneg].
      + set (n := Z.to_nat (to_us end_date - to_us start_date)).
        exists (S n).
        apply (init_loop_stops end_date work_start work_end delta He n Hpos);
          [exact Hs|].
        rewrite (lt_to_us _ _ Hs He) in Elt. apply Z.ltb_lt in Elt.
        unfold n. rewrite Z2Nat.id by lia. nia.
      + assert (Hlt : delta < 0) by (unfold increment_us in Etd; divmod_lia).
        set (n := Z.to_nat (to_us start_date)).
        exists (S n).
        apply (init_loop_stops_negative end_date work_start work_end delta n Hlt);
          [exact Hs|].
        pose proof (valid_range start_date Hs) as Hr.
        unfold n. rewrite Z2Nat.id by (unfold_units; lia).
        unfold_units. nia.
    - exists 1%nat. simpl. rewrite Elt. eauto. }
  destruct Hloop as (fuel & [d|e] & El); exists fuel; rewrite El; eauto.
Qed.

Lemma Calendar_init_representable (fuel : nat) (start_date end_date : datetime)
      (work_start work_end : option time) (inc : Z) (c : Calendar) :
  valid start_date -> valid end_date -> 1 <= inc ->
  Calendar_init fuel start_date end_date work_start work_end inc = Some (Ok c) ->
  representable start_date end_date inc.
Proof.
  intros Hs He Hinc Hinit.
  destruct (Calendar_init_Ok _ _ _ _ _ _ _ Hs He Hinit)
    as (_ & Hdelta & Hch & _ & _ & Hlen).
  specialize (Hlen Hinc). rewrite Hdelta in Hch.
  split.
  - unfold Calendar_init, timedelta_minutes in Hinit.
    fold (increment_us inc) in Hinit.
    destruct (in_delta_range (increment_us inc)); [reflexivity|discriminate].
  - rewrite <- Hlen. clear Hlen.
    pose proof (valid_range start_date Hs) as Hr.
    revert Hch. generalize (slots c). intros d.
    destruct d as [|kv rest _] using rev_ind; intros Hch;
      [simpl List.length; simpl Z.of_nat; lia|].
    destruct kv as [k slot].
    assert (Hn : nth_error (rest ++ [(k, slot)]) (List.length rest)
                 = Some (k, slot)).
    { rewrite nth_error_app2 by lia. rewrite Nat.sub_diag. reflexivity. }
    destruct (contiguous_nth _ _ _ _ _ _ Hs Hch Hn) as (_ & _ & Ha & Hve & Hk).
    destruct (add_Ok _ _ _ Ha) as [_ Hu].
    pose proof (valid_range _ Hve) as Hre.
    rewrite length_app. simpl List.length. rewrite Nat2Z.inj_add. simpl Z.of_nat.
    lia.
Qed.

(** C2, amended.  For valid [start_date], [end_date] and an increment of at
    least one minute: when the increment and the end of the last slot are
    representable, construction returns a calendar, the same whatever the
    fuel, with exactly ceil((end_date - start_date) / increment) slots when
    start_date < end_date and none otherwise; the first slot starts at
    start_date, every slot ends one increment after it starts and the next
    one starts there, the keys are pairwise distinct and each slot is found
    under its start time.  When they are not representable, construction
    raises OverflowError. *)
Theorem construction_spec (start_date end_date : datetime)
        (work_start work_end : option time) (inc : Z) :
  valid start_date -> valid end_date -> 1 <= inc ->
  (representable start_date end_date inc ->
   exists fuel c,
     Calendar_init fuel start_date end_date work_start work_end inc = Some (Ok c) /\
     (forall fuel' r,
         Calendar_init fuel' start_date end_date work_start work_end inc = Some r ->
         r = Ok c) /\
     (lt start_date end_date = true ->
      Z.of_nat (List.length (slots c))
      = ceil_div (to_us end_date - to_us start_date) (increment_us inc)) /\
     (lt start_date end_date = false -> slots c = []) /\
     contiguous (increment_us inc) (slots c) start_date /\
     NoDup (keys (slots c)) /\
     (forall k slot,
         In (k, slot) (slots c) ->
         start_time slot = k /\ dict_get (slots c) k = Some slot))
  /\
  (~ representable start_date end_date inc ->
   exists fuel,
     Calendar_init fuel start_date end_date work_start work_end inc
     = Some (Raise OverflowError)).
Proof.
  intros Hs He Hinc.
  pose proof (increment_us_pos inc Hinc) as Hpos.
  split.
  - intros [Hrange Hlast].
    set (a := to_us end_date - to_us start_date) in *.
    set (n := Z.to_nat (Z.max 0 (ceil_div a (increment_us inc)))).
    destruct (init_loop_succeeds end_date work_start work_end He
                (increment_us inc) n Hpos [] start_date Hs)
      as [d Hd].
    { unfold n. rewrite Z2Nat.id by lia. reflexivity. }
    { unfold n. rewrite Z2Nat.id by lia. exact Hlast. }
    assert (Hinit : Calendar_init (S n) start_date end_date work_start work_end inc
                    = Some (Ok (mk_Calendar d (increment_us inc) inc))).
    { unfold Calendar_init, timedelta_minutes. fold (increment_us inc).
      rewrite Hrange, Hd. reflexivity. }
    exists (S n), (mk_Calendar d (increment_us inc) inc).
    destruct (Calendar_init_Ok _ _ _ _ _ _ _ Hs He Hinit)
      as (_ & _ & Hch & _ & _ & Hlen).
    specialize (Hlen Hinc). simpl in Hch, Hlen |- *.
    split; [exact Hinit|].
    split; [intros fuel' r Hr; exact (Calendar_init_unique _ _ _ _ _ _ _ _ _ Hr Hinit)|].
    split.
    { intros Hlt. rewrite (lt_to_us _ _ Hs He) in Hlt. apply Z.ltb_lt in Hlt.
      pose proof (ceil_div_pos a (increment_us inc) Hpos ltac:(unfold a; lia)).
      fold a in Hlen. lia. }
    split.
    { intros Hge. rewrite (lt_to_us _ _ Hs He) in Hge. apply Z.ltb_ge in Hge.
      pose proof (ceil_div_nonpos a (increment_us inc) Hpos ltac:(unfold a; lia)).
      fold a in Hlen. destruct d; [reflexivity|simpl in Hlen; lia]. }
    split; [exact Hch|].
    split; [exact (contiguous_NoDup _ _ Hpos _ Hs Hch)|].
    intros k slot Hin. split.
    + pose proof (contiguous_well_keyed _ _ _ Hch) as Hw.
      unfold well_keyed in Hw. rewrite Forall_forall in Hw. exact (Hw _ Hin).
    + exact (contiguous_get _ _ Hpos _ _ _ Hs Hch Hin).
  - intros Hnot.
    destruct (Calendar_init_stops start_date end_date work_start work_end inc
                                  Hs He ltac:(left; lia))
      as (fuel & [c|ex] & Hr).
    + exfalso. apply Hnot.
      exact (Calendar_init_representable _ _ _ _ _ _ _ Hs He Hinc Hr).
    + exists fuel. rewrite Hr.
      rewrite (Calendar_init_raises _ _ _ _ _ _ _ Hr). reflexivity.
Qed.

(** The first hour of 2024 in steps of 30 minutes: two slots. *)
Lemma construction_spec_witness :
  exists fuel c,
    Calendar_init fuel (on_2024_01_01 0 0) (on_2024_01_01 1 0)
                  (Some (clock 0 0)) (Some (clock 23 59)) 30
    = Some (Ok c) /\
    (forall fuel' r,
        Calendar_init fuel' (on_2024_01_01 0 0) (on_2024_01_01 1 0)
                      (Some (clock 0 0)) (Some (clock 23 59)) 30
        = Some r ->
        r = Ok c) /\
    (lt (on_2024_01_01 0 0) (on_2024_01_01 1 0) = true ->
     Z.of_nat (List.length (slots c))
     = ceil_div (to_us (on_2024_01_01 1 0) - to_us (on_2024_01_01 0 0))
                (increment_us 30)) /\
    (lt (on_2024_01_01 0 0) (on_2024_01_01 1 0) = false -> slots c = []) /\
    contiguous (increment_us 30) (slots c) (on_2024_01_01 0 0) /\
    NoDup (keys (slots c)) /\
    (forall k slot,
        In (k, slot) (slots c) ->
        start_time slot = k /\ dict_get (slots c) k = Some slot).
Proof.
  refine (proj1 (construction_spec (on_2024_01_01 0 0) (on_2024_01_01 1 0)
                                   (Some (clock 0 0)) (Some (clock 23 59)) 30
                                   _ _ _) _).
  - concrete_valid.
  - concrete_valid.
  - lia.
  - split; vm_compute; reflexivity.
Defined.

(** C2 as stated fails at the end of the calendar: from 23:00 to 23:45 on
    9999-12-31 in steps of 30 minutes the ceiling counts two slots, but the
    second would end after the last datetime there is, and construction
    raises. *)
Lemma construction_counterexample :
  valid (on_9999_12_31 23 0) /\ valid (on_9999_12_31 23 45) /\
  lt (on_9999_12_31 23 0) (on_9999_12_31 23 45) = true /\
  ceil_div (to_us (on_9999_12_31 23 45) - to_us (on_9999_12_31 23 0))
           (increment_us 30) = 2 /\
  Calendar_init 2 (on_9999_12_31 23 0) (on_9999_12_31 23 45) None None 30
  = Some (Raise OverflowError) /\
  (forall fuel c,
      Calendar_init fuel (on_9999_12_31 23 0) (on_9999_12_31 23 45) None None 30
      <> Some (Ok c)).
Proof.
  assert (H : Calendar_init 2 (on_9999_12_31 23 0) (on_9999_12_31 23 45)
                            None None 30
              = Some (Raise OverflowError)) by (vm_compute; reflexivity).
  split; [concrete_valid|]. split; [concrete_valid|].
  split; [reflexivity|]. split; [vm_compute; reflexivity|].
  split; [exact H|].
  intros fuel c Hc.
  pose proof (Calendar_init_unique _ _ _ _ _ _ _ _ _ Hc H). discriminate.
Qed.

Lemma three_quarters_constructed :
  Calendar_init 3 (on_2024_01_01 0 0) (on_2024_01_01 0 45) None None 30
  = Some (Ok three_quarters).
Proof. vm_compute. reflexivity. Qed.

Lemma ceil_div_exact (a b : Z) :
  0 < b -> (ceil_div a b * b <= a <-> a mod b = 0).
Proof.
  intros Hb. pose proof (ceil_div_spec a b Hb) as Hc.
  split.
  - intros H. assert (E : a = ceil_div a b * b) by lia.
    rewrite E. apply Z.mod_mul. lia.
  - intros H. pose proof (Z.div_mod a b ltac:(lia)) as Hdm.
    rewrite H, Z.add_0_r in Hdm.
    assert (ceil_div a b = a / b) by nia. nia.
Qed.

(** C5, amended.  In every calendar the constructor returns with at least
    one slot, the last slot starts before [end_date] and ends at or after
    it; its end is [<= end_date] exactly when the increment divides
    [end_date - start_date], and past [end_date] otherwise. *)
Theorem last_slot_spec (fuel : nat) (start_date end_date : datetime)
        (work_start work_end : option time) (inc : Z) (c : Calendar)
        (front : dict TimeSlot) (k : datetime) (slot : TimeSlot) :
  valid start_date -> valid end_date ->
  Calendar_init fuel start_date end_date work_start work_end inc = Some (Ok c) ->
  slots c = front ++ [(k, slot)] ->
  lt (start_time slot) end_date = true /\
  le end_date (end_time slot) = true /\
  (le (end_time slot) end_date = true
   <-> (to_us end_date - to_us start_date) mod increment_us inc = 0).
Proof.
  intros Hs He Hinit Hslots.
  destruct (Calendar_init_Ok _ _ _ _ _ _ _ Hs He Hinit)
    as (_ & Hdelta & Hch & _ & Hcase & Hlen).
  assert (Hinc : 1 <= inc).
  { destruct Hcase as [E|H]; [|exact H].
    rewrite Hslots in E. destruct front; discriminate. }
  specialize (Hlen Hinc). pose proof (increment_us_pos inc Hinc) as Hpos.
  rewrite Hdelta, Hslots in Hch. rewrite Hslots in Hlen.
  assert (Hn : nth_error (front ++ [(k, slot)]) (List.length front)
               = Some (k, slot)).
  { rewrite nth_error_app2 by lia. rewrite Nat.sub_diag. reflexivity. }
  destruct (contiguous_nth _ _ _ _ _ _ Hs Hch Hn) as (Hvk & Hst & Ha & Hve & Hk).
  destruct (add_Ok _ _ _ Ha) as [_ Hu].
  rewrite length_app in Hlen. simpl List.length in Hlen.
  rewrite Nat2Z.inj_add in Hlen. simpl Z.of_nat in Hlen.
  set (a := to_us end_date - to_us start_date) in *.
  pose proof (ceil_div_spec a (increment_us inc) Hpos) as Hc.
  pose proof (ceil_div_exact a (increment_us inc) Hpos) as Hex.
  assert (Hn1 : Z.of_nat (List.length front) + 1 = ceil_div a (increment_us inc))
    by lia.
  rewrite Hst, (lt_to_us _ _ Hvk He), (le_to_us _ _ He Hve), (le_to_us _ _ Hve He).
  rewrite Z.ltb_lt, !Z.leb_le, <- Hex.
  unfold a in *. repeat split; nia.
Qed.

(** The calendar from 00:00 to 00:45: its last slot starts at 00:30 and
    ends at 01:00. *)
Lemma last_slot_spec_witness :
  lt (on_2024_01_01 0 30) (on_2024_01_01 0 45) = true /\
  le (on_2024_01_01 0 45) (on_2024_01_01 1 0) = true /\
  (le (on_2024_01_01 1 0) (on_2024_01_01 0 45) = true
   <-> (to_us (on_2024_01_01 0 45) - to_us (on_2024_01_01 0 0))
       mod increment_us 30 = 0).
Proof.
  apply (last_slot_spec
           3 (on_2024_01_01 0 0) (on_2024_01_01 0 45) None None 30 three_quarters
           [(on_2024_01_01 0 0,
             mk_TimeSlot (on_2024_01_01 0 0) (on_2024_01_01 0 30)
                         available None None [])]
           (on_2024_01_01 0 30)
           (mk_TimeSlot (on_2024_01_01 0 30) (on_2024_01_01 1 0)
                        available None None [])).
  - concrete_valid.
  - concrete_valid.
  - vm_compute. reflexivity.
  - reflexivity.
Defined.

(** C5 as stated fails: the calendar from 00:00 to 00:45 in steps of 30
    minutes has a last slot that ends at 01:00, after [end_date]. *)
Lemma last_slot_counterexample :
  Calendar_init 3 (on_2024_01_01 0 0) (on_2024_01_01 0 45) None None 30
  = Some (Ok three_quarters) /\
  List.length (slots three_quarters) = 2%nat /\
  exists slot,
    nth_error (values (slots three_quarters)) 1 = Some slot /\
    end_time slot = on_2024_01_01 1 0 /\
    le (end_time slot) (on_2024_01_01 0 45) = false /\
    lt (on_2024_01_01 0 45) (end_time slot) = true.
Proof.
  split; [exact three_quarters_constructed|]. split; [reflexivity|].
  eexists. split; [reflexivity|]. repeat split.
Qed.

(** C9, amended.  Construction stops, with a calendar or with
    OverflowError and with the same answer whatever the fuel, for every
    increment other than 0 and for every empty range.  With an increment of
    at least one minute, rounding, lookup and booking return a value, and
    [get_slots_for_day] returns at most one slot per entry of the dict.
    With increment 0 and a range that is not empty, construction never
    stops. *)
Theorem operations_terminate :
  (forall start_date end_date work_start work_end inc,
      valid start_date -> valid end_date ->
      inc <> 0 \/ lt start_date end_date = false ->
      exists fuel r,
        Calendar_init fuel start_date end_date work_start work_end inc = Some r /\
        (forall fuel' r',
            Calendar_init fuel' start_date end_date work_start work_end inc
            = Some r' ->
            r' = r) /\
        (forall ex, r = Raise ex -> ex = OverflowError))
  /\
  (forall c t s,
      valid t -> 1 <= time_increment_minutes c ->
      (exists r, round_to_nearest_slot c t = Ok r) /\
      (exists found, get_slot_at c t = Ok found) /\
      (exists b c', book_slot c t s = Ok (b, c')))
  /\
  (forall c day,
      (List.length (get_slots_for_day c day) <= List.length (slots c))%nat)
  /\
  (forall start_date end_date work_start work_end fuel,
      valid start_date -> valid end_date ->
      lt start_date end_date = true ->
      Calendar_init fuel start_date end_date work_start work_end 0 = None).
Proof.
  split; [|split; [|split]].
  - intros sd ed ws we inc Hs He Hcase.
    destruct (Calendar_init_stops sd ed ws we inc Hs He Hcase) as (fuel & r & Hr).
    exists fuel, r. split; [exact Hr|]. split.
    + intros fuel' r' Hr'. exact (Calendar_init_unique _ _ _ _ _ _ _ _ _ Hr' Hr).
    + intros ex ->. exact (Calendar_init_raises _ _ _ _ _ _ _ Hr).
  - intros c t s Hv Hinc.
    pose proof (round_positive c t Hinc Hv) as Hr. cbv zeta in Hr.
    split; [eauto|].
    unfold book_slot, get_slot_at. rewrite Hr. cbn [bind].
    split; [eauto|].
    destruct (dict_get (slots c) _) as [slot|]; [|eauto].
    destruct (String.eqb (status slot) available); cbn [bind]; eauto.
  - intros c day. unfold get_slots_for_day.
    induction (slots c) as [|[k s] rest IH]; simpl; [lia|].
    destruct (date_of k =? day); simpl; [lia|].
    destruct (date_of k >? day); simpl; lia.
  - intros sd ed ws we fuel Hs He Hlt.
    rewrite (lt_to_us _ _ Hs He) in Hlt. apply Z.ltb_lt in Hlt.
    unfold Calendar_init.
    assert (E : timedelta_minutes 0 = Ok 0) by reflexivity.
    rewrite E, (init_loop_zero ed ws we He fuel [] sd Hs Hlt). reflexivity.
Qed.

(** Construction of the first hour of 2024 stops. *)
Lemma operations_terminate_witness :
  exists fuel r,
    Calendar_init fuel (on_2024_01_01 0 0) (on_2024_01_01 1 0) None None 30
    = Some r /\
    (forall fuel' r',
        Calendar_init fuel' (on_2024_01_01 0 0) (on_2024_01_01 1 0) None None 30
        = Some r' ->
        r' = r) /\
    (forall ex, r = Raise ex -> ex = OverflowError).
Proof.
  refine (proj1 operations_terminate
                (on_2024_01_01 0 0) (on_2024_01_01 1 0) None None 30 _ _ _).
  - concrete_valid.
  - concrete_valid.
  - left. lia.
Defined.

(** C9 as stated fails: with [time_increment_minutes = 0] and a range that
    is not empty the construction loop never stops, whatever the fuel. *)
Lemma operations_terminate_counterexample :
  lt (on_2024_01_01 0 0) (on_2024_01_01 1 0) = true /\
  (forall fuel,
      Calendar_init fuel (on_2024_01_01 0 0) (on_2024_01_01 1 0) None None 0
      = None).
Proof.
  split; [reflexivity|]. intros fuel.
  unfold Calendar_init.
  assert (E : timedelta_minutes 0 = Ok 0) by reflexivity.
  rewrite E.
  rewrite (init_loop_zero (on_2024_01_01 1 0) None None); [reflexivity| | |].
  - concrete_valid.
  - concrete_valid.
  - vm_compute. reflexivity.
Qed.

(** C3, amended.  On a calendar whose increment is at least one minute,
    [round_to_nearest_slot] is a floor to the increment counted from
    midnight: for every timestamp [t] it returns some [r] with [r <= t],
    rounding [r] gives [r] again, the seconds and microseconds of [r] are
    zero and its minutes since midnight are a multiple of the increment. *)
Theorem round_to_nearest_slot_floor (c : Calendar) (t : datetime) :
  1 <= time_increment_minutes c -> valid t -> floor_rounding c t.
Proof.
  intros Hinc Hv.
  pose proof (round_positive c t Hinc Hv) as Hr. cbv zeta in Hr.
  destruct (round_positive_valid c t _ Hinc Hv Hr) as (Hvr & Ho & Hq & Hs & Hu).
  eexists. split; [exact Hr|].
  split; [exact (round_positive_le c t _ Hinc Hv Hr)|].
  split; [exact (round_positive_idempotent c t _ Hinc Hv Hr)|].
  split; [exact Hs|]. split; [exact Hu|].
  exists ((hour t * 60 + minute t) / time_increment_minutes c).
  rewrite Hq.
  pose proof (Z.div_mod (hour t * 60 + minute t) (time_increment_minutes c)
                        ltac:(lia)).
  lia.
Qed.

(** 00:47:13 on the calendar of the first hour of 2024 rounds to 00:30. *)
Lemma round_to_nearest_slot_floor_witness :
  floor_rounding first_hour (mk_datetime 738886 0 47 13 500).
Proof.
  apply round_to_nearest_slot_floor.
  - simpl. lia.
  - concrete_valid.
Defined.

(** C3 as stated fails on calendars whose increment is not positive (the
    constructor returns such a calendar when the range is empty): with
    increment -30, 10:05 rounds up to 10:30; with increment 0 rounding
    raises ZeroDivisionError. *)
Lemma round_to_nearest_slot_counterexample :
  Calendar_init 1 (on_2024_01_01 0 0) (on_2024_01_01 0 0) None None (-30)
  = Some (Ok (empty_calendar (-30))) /\
  round_to_nearest_slot (empty_calendar (-30)) (on_2024_01_01 10 5)
  = Ok (on_2024_01_01 10 30) /\
  le (on_2024_01_01 10 30) (on_2024_01_01 10 5) = false /\
  ~ floor_rounding (empty_calendar (-30)) (on_2024_01_01 10 5) /\
  Calendar_init 1 (on_2024_01_01 0 0) (on_2024_01_01 0 0) None None 0
  = Some (Ok (empty_calendar 0)) /\
  round_to_nearest_slot (empty_calendar 0) (on_2024_01_01 10 5)
  = Raise ZeroDivisionError /\
  ~ floor_rounding (empty_calendar 0) (on_2024_01_01 10 5).
Proof.
  assert (H30 : round_to_nearest_slot (empty_calendar (-30)) (on_2024_01_01 10 5)
                = Ok (on_2024_01_01 10 30)) by (vm_compute; reflexivity).
  assert (H0 : round_to_nearest_slot (empty_calendar 0) (on_2024_01_01 10 5)
               = Raise ZeroDivisionError) by reflexivity.
  split; [vm_compute; reflexivity|]. split; [exact H30|].
  split; [reflexivity|]. split.
  { intros (r & Hr & Hle & _). rewrite H30 in Hr. injection Hr as <-.
    discriminate Hle. }
  split; [vm_compute; reflexivity|]. split; [exact H0|].
  intros (r & Hr & _). rewrite H0 in Hr. discriminate Hr.
Qed.

(** The keys of a calendar lie in [[start_date, end_date)]. *)
Lemma Calendar_init_keys_range (fuel : nat) (start_date end_date : datetime)
      (work_start work_end : option time) (inc : Z) (c : Calendar) (k : datetime) :
  valid start_date -> valid end_date ->
  Calendar_init fuel start_date end_date work_start work_end inc = Some (Ok c) ->
  In k (keys (slots c)) ->
  valid k /\ to_us start_date <= to_us k < to_us end_date.
Proof.
  intros Hs He Hinit Hin.
  destruct (Calendar_init_Ok _ _ _ _ _ _ _ Hs He Hinit)
    as (_ & Hdelta & Hch & _ & Hcase & Hlen).
  assert (Hinc : 1 <= inc).
  { destruct Hcase as [E|H]; [|exact H]. rewrite E in Hin. destruct Hin. }
  specialize (Hlen Hinc). pose proof (increment_us_pos inc Hinc) as Hpos.
  rewrite Hdelta in Hch.
  unfold keys in Hin. apply in_map_iff in Hin.
  destruct Hin as ([k' slot] & Hk & Hin). simpl in Hk. subst k'.
  apply In_nth_error in Hin. destruct Hin as [i Hi].
  destruct (contiguous_nth _ _ _ _ _ _ Hs Hch Hi) as (Hvk & _ & _ & _ & Hpos_k).
  split; [exact Hvk|].
  assert (Hilt : (i < List.length (slots c))%nat)
    by (apply nth_error_Some; rewrite Hi; discriminate).
  set (a := to_us end_date - to_us start_date) in *.
  pose proof (ceil_div_spec a (increment_us inc) Hpos) as Hc.
  assert (Hn : Z.of_nat i + 1 <= ceil_div a (increment_us inc)) by lia.
  unfold a in *. nia.
Qed.

(** C4, amended.  On a calendar whose increment is at least one minute, for
    every timestamp [t]: rounding returns some [r], looking up [r] gives
    what looking up [t] gives, the lookup returns rather than raises, and
    it returns no slot whenever [r] is before [start_date], at or after
    [end_date], or not a key of the dict. *)
Theorem get_slot_at_spec (fuel : nat) (start_date end_date : datetime)
        (work_start work_end : option time) (inc : Z) (c0 : Calendar)
        (ops : list op) (t : datetime) :
  valid start_date -> valid end_date ->
  Calendar_init fuel start_date end_date work_start work_end inc = Some (Ok c0) ->
  1 <= inc -> valid t ->
  exists r,
    round_to_nearest_slot (run c0 ops) t = Ok r /\
    get_slot_at (run c0 ops) r = get_slot_at (run c0 ops) t /\
    (exists found, get_slot_at (run c0 ops) t = Ok found) /\
    (lt r start_date = true \/ le end_date r = true
     \/ ~ In r (keys (slots (run c0 ops))) ->
     get_slot_at (run c0 ops) t = Ok None).
Proof.
  intros Hs He Hinit Hinc Hv.
  destruct (Calendar_init_Ok _ _ _ _ _ _ _ Hs He Hinit) as (Hi & _).
  assert (Hinc' : 1 <= time_increment_minutes (run c0 ops))
    by (rewrite run_increment, Hi; exact Hinc).
  pose proof (round_positive _ t Hinc' Hv) as Hr. cbv zeta in Hr.
  destruct (round_positive_valid _ t _ Hinc' Hv Hr) as (Hvr & _).
  pose proof (round_positive_idempotent _ t _ Hinc' Hv Hr) as Hidem.
  eexists. split; [exact Hr|].
  unfold get_slot_at. rewrite Hidem, Hr. cbn [bind].
  split; [reflexivity|]. split; [eauto|].
  intros Hout. f_equal. apply dict_get_None.
  rewrite run_keys.
  destruct Hout as [Hlt|[Hge|Hnin]]; [| |rewrite run_keys in Hnin; exact Hnin].
  - intros Hin.
    destruct (Calendar_init_keys_range _ _ _ _ _ _ _ _ Hs He Hinit Hin) as [_ Hrange].
    rewrite (lt_to_us _ _ Hvr Hs) in Hlt. apply Z.ltb_lt in Hlt. lia.
  - intros Hin.
    destruct (Calendar_init_keys_range _ _ _ _ _ _ _ _ Hs He Hinit Hin) as [_ Hrange].
    rewrite (le_to_us _ _ He Hvr) in Hge. apply Z.leb_le in Hge. lia.
Qed.

(** On the calendar of the first hour of 2024, after a booking, 01:20
    rounds to 01:00, which is the end of the range: no slot. *)
Lemma get_slot_at_spec_witness :
  exists r,
    round_to_nearest_slot
      (run first_hour [OpBookSlot (on_2024_01_01 0 10) "x"]) (on_2024_01_01 1 20)
    = Ok r /\
    get_slot_at (run first_hour [OpBookSlot (on_2024_01_01 0 10) "x"]) r
    = get_slot_at (run first_hour [OpBookSlot (on_2024_01_01 0 10) "x"])
                  (on_2024_01_01 1 20) /\
    (exists found,
        get_slot_at (run first_hour [OpBookSlot (on_2024_01_01 0 10) "x"])
                    (on_2024_01_01 1 20)
        = Ok found) /\
    (lt r (on_2024_01_01 0 0) = true \/ le (on_2024_01_01 1 0) r = true
     \/ ~ In r (keys (slots (run first_hour
                                 [OpBookSlot (on_2024_01_01 0 10) "x"]))) ->
     get_slot_at (run first_hour [OpBookSlot (on_2024_01_01 0 10) "x"])
                 (on_2024_01_01 1 20)
     = Ok None).
Proof.
  apply (get_slot_at_spec 3 (on_2024_01_01 0 0) (on_2024_01_01 1 0)
                          (Some (clock 0 0)) (Some (clock 23 59)) 30 first_hour
                          [OpBookSlot (on_2024_01_01 0 10) "x"]
                          (on_2024_01_01 1 20)).
  - concrete_valid.
  - concrete_valid.
  - vm_compute. reflexivity.
  - lia.
  - concrete_valid.
Defined.

(** C4 as stated fails on calendars whose increment is not positive: with
    increment 0 every lookup raises ZeroDivisionError although the dict has
    no key at all; with increment -1441, 23:59 on 9999-12-30 rounds to 00:01
    on 9999-12-31 and its lookup returns no slot, while the lookup of the
    rounded time raises OverflowError. *)
Lemma get_slot_at_counterexample :
  Calendar_init 1 (on_2024_01_01 0 0) (on_2024_01_01 0 0) None None 0
  = Some (Ok (empty_calendar 0)) /\
  keys (slots (empty_calendar 0)) = [] /\
  get_slot_at (empty_calendar 0) (on_2024_01_01 10 5) = Raise ZeroDivisionError /\
  Calendar_init 1 (on_2024_01_01 0 0) (on_2024_01_01 0 0) None None (-1441)
  = Some (Ok (empty_calendar (-1441))) /\
  round_to_nearest_slot (empty_calendar (-1441)) (on_9999_12_30 23 59)
  = Ok (on_9999_12_31 0 1) /\
  get_slot_at (empty_calendar (-1441)) (on_9999_12_30 23 59) = Ok None /\
  get_slot_at (empty_calendar (-1441)) (on_9999_12_31 0 1) = Raise OverflowError.
Proof.
  repeat split; vm_compute; reflexivity.
Qed.

(** ** The examples of the docstring of [round_to_nearest_slot] *)

Example round_10_05 :
  round_to_nearest_slot first_hour (on_2024_01_01 10 5) = Ok (on_2024_01_01 10 0).
Proof. vm_compute. reflexivity. Qed.

Example round_10_35 :
  round_to_nearest_slot first_hour (on_2024_01_01 10 35) = Ok (on_2024_01_01 10 30).
Proof. vm_compute. reflexivity. Qed.

Example round_10_59 :
  round_to_nearest_slot first_hour (on_2024_01_01 10 59) = Ok (on_2024_01_01 10 30).
Proof. vm_compute. reflexivity. Qed.

(** Outside working hours every slot is busy from the start: the lookup of
    00:05 finds the 00:00 slot, and booking it fails. *)
Example lookup_outside_work :
  get_slot_at first_hour_outside_work (on_2024_01_01 0 5)
  = Ok (Some (mk_TimeSlot (on_2024_01_01 0 0) (on_2024_01_01 0 30)
                          busy None None [])) /\
  book_slot first_hour_outside_work (on_2024_01_01 0 0) "standup"
  = Ok (false, first_hour_outside_work).
Proof. split; vm_compute; reflexivity. Qed.

Example slots_of_the_first_day :
  get_slots_for_day night_shift 738886
  = [mk_TimeSlot (on_2024_01_01 23 0) (on_2024_01_01 23 30) busy None None [];
     mk_TimeSlot (on_2024_01_01 23 30) (on_2024_01_02 0 0) available None None []].
Proof. reflexivity. Qed.

(** * Calendars in use *)

(** ** What operations leave alone *)

Lemma contiguous_dict_set (delta : timedelta) (d : dict TimeSlot) :
  forall from k old v,
    contiguous delta d from ->
    dict_get d k = Some old ->
    start_time v = start_time old -> end_time v = end_time old ->
    contiguous delta (dict_set d k v) from.
Proof.
  induction d as [|[k0 s0] rest IH]; simpl; intros from k old v Hch Hg Hst Hen;
    [discriminate|].
  destruct Hch as (Hk0 & Hs0 & Ha & Hrest).
  destruct (eqb k0 k) eqn:E; simpl.
  - injection Hg as <-. rewrite Hst, Hen. auto.
  - repeat split; auto. exact (IH _ _ _ _ Hrest Hg Hst Hen).
Qed.

(** What one operation does to the slot stored under a key: nothing, or it
    books it. *)
Lemma step_slot (c : Calendar) (o : op) (k : datetime) (slot : TimeSlot) :
  dict_get (slots c) k = Some slot ->
  dict_get (slots (step c o)) k = Some slot \/
  (status slot = available /\
   exists s, dict_get (slots (step c o)) k
             = Some (set_title (set_status slot busy) s)).
Proof.
  intros Hg. destruct o as [t|t|d|t s]; simpl; auto.
  destruct (book_slot c t s) as [[b c']|e] eqn:E; auto.
  apply book_slot_inv in E.
  destruct E as [(_ & -> & _)|(_ & r & slot0 & _ & Hg0 & Hav & ->)]; auto.
  simpl. destruct (eqb r k) eqn:Ek.
  - apply eqb_eq in Ek. subst r. rewrite dict_get_set_same.
    assert (slot0 = slot) by congruence. subst slot0.
    right. split; [exact Hav|]. exists s. reflexivity.
  - apply eqb_neq in Ek. rewrite dict_get_set_other by congruence. auto.
Qed.

Lemma step_contiguous (c : Calendar) (o : op) (delta : timedelta) (from : datetime) :
  contiguous delta (slots c) from -> contiguous delta (slots (step c o)) from.
Proof.
  intros Hch. destruct o as [t|t|d|t s]; simpl; auto.
  destruct (book_slot c t s) as [[b c']|e] eqn:E; auto.
  apply book_slot_inv in E.
  destruct E as [(_ & -> & _)|(_ & r & slot0 & _ & Hg0 & _ & ->)]; auto.
  simpl.
  exact (contiguous_dict_set _ _ _ _ slot0 (set_title (set_status slot0 busy) s)
                             Hch Hg0 eq_refl eq_refl).
Qed.

Lemma run_contiguous (ops : list op) (delta : timedelta) (from : datetime) :
  forall c,
    contiguous delta (slots c) from -> contiguous delta (slots (run c ops)) from.
Proof.
  unfold run. induction ops as [|o ops IH]; simpl; intros c H; [exact H|].
  apply IH. apply step_contiguous. exact H.
Qed.

Lemma run_delta (ops : list op) :
  forall c, time_delta (run c ops) = time_delta c.
Proof.
  unfold run. induction ops as [|o ops IH]; simpl; intros c; [reflexivity|].
  rewrite IH. apply step_increment.
Qed.

(** X6. Operations never add, drop or reorder slots, never change the
    increment, and never touch a slot's start, end, description or people:
    whatever chain of slots the calendar was, it still is. *)
Theorem operations_keep_structure (c : Calendar) (ops : list op) :
  keys (slots (run c ops)) = keys (slots c) /\
  time_increment_minutes (run c ops) = time_increment_minutes c /\
  time_delta (run c ops) = time_delta c /\
  (forall delta from,
      contiguous delta (slots c) from ->
      contiguous delta (slots (run c ops)) from) /\
  (forall k slot,
      dict_get (slots c) k = Some slot ->
      exists slot',
        dict_get (slots (run c ops)) k = Some slot' /\
        start_time slot' = start_time slot /\ end_time slot' = end_time slot /\
        description slot' = description slot /\
        people_involved slot' = people_involved slot).
Proof.
  split; [apply run_keys|]. split; [apply run_increment|].
  split; [apply run_delta|].
  split; [intros delta from; apply run_contiguous|].
  revert c. unfold run.
  induction ops as [|o ops IH]; simpl; intros c k slot Hg; [eauto 6|].
  destruct (step_slot c o k slot Hg) as [H|(_ & s & H)].
  - exact (IH _ _ _ H).
  - destruct (IH _ _ _ H) as (slot' & H1 & H2 & H3 & H4 & H5).
    exists slot'. simpl in *. auto.
Qed.

(** X7. A slot that is not 'available' is frozen: after any operations the very
    same slot, with the title it had, is stored under its key. *)
Theorem unavailable_slot_is_frozen (c : Calendar) (ops : list op)
        (k : datetime) (slot : TimeSlot) :
  dict_get (slots c) k = Some slot -> status slot <> available ->
  dict_get (slots (run c ops)) k = Some slot.
Proof.
  revert c. unfold run.
  induction ops as [|o ops IH]; simpl; intros c Hg Hs; [exact Hg|].
  destruct (step_slot c o k slot Hg) as [H|(Hav & _)]; [|contradiction].
  exact (IH _ H Hs).
Qed.

(** 00:10 booked as "x" on the first hour of 2024: later bookings of the
    slot and other operations leave the slot, title included, as it is. *)
Lemma unavailable_slot_is_frozen_witness :
  dict_get
    (slots (run (run first_hour [OpBookSlot (on_2024_01_01 0 10) "x"])
                [OpBookSlot (on_2024_01_01 0 0) "y";
                 OpGetSlotAt (on_2024_01_01 0 20);
                 OpBookSlot (on_2024_01_01 0 29) "z"]))
    (on_2024_01_01 0 0)
  = Some (mk_TimeSlot (on_2024_01_01 0 0) (on_2024_01_01 0 30)
                      busy (Some "x"%string) None []).
Proof.
  apply unavailable_slot_is_frozen.
  - vm_compute. reflexivity.
  - simpl. discriminate.
Defined.

(** ** The fields of the slots *)

Lemma new_TimeSlot_ok (sd ed : datetime) (ws we : option time) :
  slot_ok (new_TimeSlot sd ed ws we).
Proof.
  unfold new_TimeSlot, post_init, slot_ok.
  destruct ws as [ws|], we as [we|]; simpl; auto.
  destruct (negb _); simpl; auto.
Qed.

Lemma step_slot_ok (c : Calendar) (o : op) :
  Forall slot_ok (values (slots c)) -> Forall slot_ok (values (slots (step c o))).
Proof.
  intros Hall. destruct o as [t|t|d|t s]; simpl; auto.
  destruct (book_slot c t s) as [[b c']|e] eqn:E; auto.
  apply book_slot_inv in E.
  destruct E as [(_ & -> & _)|(_ & r & slot0 & _ & Hg0 & _ & ->)]; auto.
  simpl. apply dict_get_In in Hg0.
  assert (Hok0 : slot_ok slot0).
  { rewrite Forall_forall in Hall. apply Hall. unfold values.
    change slot0 with (snd (r, slot0)). apply in_map. exact Hg0. }
  assert (Hnew : slot_ok (set_title (set_status slot0 busy) s)).
  { destruct Hok0 as (_ & _ & Hd & Hp). unfold slot_ok. simpl.
    repeat split; auto. discriminate. }
  clear Hg0 Hok0. revert Hall. generalize (slots c). intros d.
  induction d as [|[k v] rest IH]; simpl; intros Hall.
  - constructor; [exact Hnew|constructor].
  - inversion Hall as [|x y Hv Hrest]; subst x y.
    destruct (eqb k r); simpl; constructor; auto.
Qed.

(** X8. On every calendar, every slot has status 'available' or 'busy', has no
    title while it is 'available', and has no description and nobody
    involved: the core never writes those two fields. *)
Theorem slots_stay_well_formed (c : Calendar) (slot : TimeSlot) :
  constructed c -> In slot (values (slots c)) -> slot_ok slot.
Proof.
  intros (fuel & sd & ed & ws & we & inc & c0 & ops & Hs & He & Hinit & ->).
  destruct (Calendar_init_Ok _ _ _ _ _ _ _ Hs He Hinit)
    as (_ & _ & _ & Hfr & _ & _).
  assert (H0 : Forall slot_ok (values (slots c0))).
  { unfold values. apply Forall_forall. intros x Hx.
    apply in_map_iff in Hx. destruct Hx as ([k v] & <- & Hin).
    rewrite Forall_forall in Hfr. specialize (Hfr _ Hin).
    unfold as_constructed in Hfr. simpl in Hfr |- *. rewrite Hfr.
    apply new_TimeSlot_ok. }
  assert (Hrun : forall ops c, Forall slot_ok (values (slots c)) ->
                               Forall slot_ok (values (slots (run c ops)))).
  { unfold run. clear. intros ops.
    induction ops as [|o ops IH]; simpl; intros c H; [exact H|].
    apply IH. apply step_slot_ok. exact H. }
  intros Hin. specialize (Hrun ops c0 H0).
  rewrite Forall_forall in Hrun. exact (Hrun _ Hin).
Qed.

(** The night-shift calendar after a booking: its 23:30 slot is well
    formed. *)
Lemma slots_stay_well_formed_witness :
  slot_ok (mk_TimeSlot (on_2024_01_01 23 30) (on_2024_01_02 0 0)
                       busy (Some "late"%string) None []).
Proof.
  apply (slots_stay_well_formed
           (run night_shift [OpBookSlot (on_2024_01_01 23 40) "late"])).
  - exists 5%nat, (on_2024_01_01 23 0), (on_2024_01_02 1 0),
      (Some (clock 17 0)), (Some (clock 9 0)), 30, night_shift,
      [OpBookSlot (on_2024_01_01 23 40) "late"].
    split; [concrete_valid|]. split; [concrete_valid|].
    split; [vm_compute; reflexivity|reflexivity].
  - vm_compute. right. left. reflexivity.
Defined.

(** ** Counting the available slots *)

Lemma count_available_book (d : dict TimeSlot) (r : datetime) (slot v : TimeSlot) :
  dict_get d r = Some slot -> status slot = available -> status v = busy ->
  S (count_available (dict_set d r v)) = count_available d.
Proof.
  unfold count_available. intros Hg Hav Hb.
  induction d as [|[k0 s0] rest IH]; simpl in *; [discriminate|].
  destruct (eqb k0 r) eqn:E; simpl.
  - injection Hg as ->. rewrite Hav, Hb. simpl. reflexivity.
  - destruct (String.eqb (status s0) available); simpl; rewrite (IH Hg);
      reflexivity.
Qed.

(** X9. Each booking that returns true uses up exactly one available slot and
    the other operations use up none: the available slots left plus the
    successful bookings make up the available slots there were. *)
Theorem available_slots_accounting (c : Calendar) (ops : list op) :
  (count_available (slots (run c ops)) + successes c ops
   = count_available (slots c))%nat.
Proof.
  revert c. unfold run.
  induction ops as [|o ops IH]; intros c; simpl; [lia|].
  rewrite Nat.add_assoc, (Nat.add_comm (count_available _)), <- Nat.add_assoc.
  rewrite IH. clear IH.
  destruct o as [t|t|d|t s]; simpl; try reflexivity.
  destruct (book_slot c t s) as [[b c']|e] eqn:E; [|reflexivity].
  apply book_slot_inv in E.
  destruct E as [(-> & -> & _)|(-> & r & slot & _ & Hg & Hav & ->)];
    [reflexivity|].
  simpl.
  exact (count_available_book _ _ slot (set_title (set_status slot busy) s)
                              Hg Hav eq_refl).
Qed.

(** ** Bookings of different slots *)

Lemma dict_set_comm {V : Type} (d : dict V) (k1 k2 : datetime) (v1 v2 : V) :
  k1 <> k2 -> In k1 (keys d) -> In k2 (keys d) ->
  dict_set (dict_set d k1 v1) k2 v2 = dict_set (dict_set d k2 v2) k1 v1.
Proof.
  intros Hne. induction d as [|[k0 v0] rest IH]; simpl; intros H1 H2;
    [destruct H1|].
  destruct (eqb k0 k1) eqn:E1, (eqb k0 k2) eqn:E2; simpl;
    rewrite ?E1, ?E2; try reflexivity.
  - apply eqb_eq in E1, E2. congruence.
  - apply eqb_neq in E1, E2. f_equal. apply IH.
    + destruct H1; [congruence|assumption].
    + destruct H2; [congruence|assumption].
Qed.

(** X10. Two bookings whose times round to different slots do not interfere:
    each returns what it would return alone, and the calendar they leave is
    the same in either order. *)
Theorem bookings_of_different_slots_commute
        (c : Calendar) (t1 t2 r1 r2 : datetime) (s1 s2 : string) :
  round_to_nearest_slot c t1 = Ok r1 ->
  round_to_nearest_slot c t2 = Ok r2 ->
  r1 <> r2 ->
  (exists b1 b2 c1 c2 c12,
      book_slot c t1 s1 = Ok (b1, c1) /\
      book_slot c t2 s2 = Ok (b2, c2) /\
      book_slot c1 t2 s2 = Ok (b2, c12) /\
      book_slot c2 t1 s1 = Ok (b1, c12)) /\
  run c [OpBookSlot t1 s1; OpBookSlot t2 s2]
  = run c [OpBookSlot t2 s2; OpBookSlot t1 s1].
Proof.
  intros H1 H2 Hne.
  assert (Hmain : exists b1 b2 c1 c2 c12,
             book_slot c t1 s1 = Ok (b1, c1) /\
             book_slot c t2 s2 = Ok (b2, c2) /\
             book_slot c1 t2 s2 = Ok (b2, c12) /\
             book_slot c2 t1 s1 = Ok (b1, c12)).
  { unfold book_slot, get_slot_at. rewrite H1, H2. cbn [bind].
    destruct (dict_get (slots c) r1) as [v1|] eqn:G1;
      destruct (dict_get (slots c) r2) as [v2|] eqn:G2.
    - destruct (String.eqb (status v1) available) eqn:A1;
        destruct (String.eqb (status v2) available) eqn:A2; cbn [bind].
      + do 5 eexists. split; [reflexivity|]. split; [reflexivity|].
        rewrite !round_set_slots, H1, H2. cbn [bind]. simpl slots.
        rewrite (dict_get_set_other _ r1 r2) by congruence.
        rewrite (dict_get_set_other _ r2 r1) by congruence.
        rewrite G1, G2, A1, A2. cbn [bind]. unfold set_slots. simpl.
        rewrite (dict_set_comm (slots c) r1 r2); auto;
          [eapply dict_get_keys; eassumption|eapply dict_get_keys; eassumption].
      + do 5 eexists. split; [reflexivity|]. split; [reflexivity|].
        rewrite !round_set_slots, H1, H2. cbn [bind]. simpl slots.
        rewrite (dict_get_set_other _ r1 r2) by congruence.
        rewrite G1, G2, A1, A2. cbn [bind]. auto.
      + do 5 eexists. split; [reflexivity|]. split; [reflexivity|].
        rewrite !round_set_slots, H1, H2. cbn [bind]. simpl slots.
        rewrite (dict_get_set_other _ r2 r1) by congruence.
        rewrite G1, G2, A1, A2. cbn [bind]. auto.
      + do 5 eexists. split; [reflexivity|]. split; [reflexivity|].
        rewrite H1, H2. cbn [bind]. rewrite G1, G2, A1, A2. auto.
    - destruct (String.eqb (status v1) available) eqn:A1; cbn [bind].
      + do 5 eexists. split; [reflexivity|]. split; [reflexivity|].
        rewrite !round_set_slots, H1, H2. cbn [bind]. simpl slots.
        rewrite (dict_get_set_other _ r1 r2) by congruence.
        rewrite G1, G2, A1. cbn [bind]. auto.
      + do 5 eexists. split; [reflexivity|]. split; [reflexivity|].
        rewrite H1, H2. cbn [bind]. rewrite G1, G2, A1. auto.
    - destruct (String.eqb (status v2) available) eqn:A2; cbn [bind].
      + do 5 eexists. split; [reflexivity|]. split; [reflexivity|].
        rewrite !round_set_slots, H1, H2. cbn [bind]. simpl slots.
        rewrite (dict_get_set_other _ r2 r1) by congruence.
        rewrite G1, G2, A2. cbn [bind]. auto.
      + do 5 eexists. split; [reflexivity|]. split; [reflexivity|].
        rewrite H1, H2. cbn [bind]. rewrite G1, G2, A2. auto.
    - do 5 eexists. split; [reflexivity|]. split; [reflexivity|].
      rewrite H1, H2. cbn [bind]. rewrite G1, G2. auto. }
  split; [exact Hmain|].
  destruct Hmain as (b1 & b2 & c1 & c2 & c12 & E1 & E2 & E12 & E21).
  unfold run. simpl. rewrite E1, E2, E12, E21. reflexivity.
Qed.

(** On the first hour of 2024, booking 00:10 and 00:40 in either order. *)
Lemma bookings_of_different_slots_commute_witness :
  run first_hour [OpBookSlot (on_2024_01_01 0 10) "x";
                  OpBookSlot (on_2024_01_01 0 40) "y"]
  = run first_hour [OpBookSlot (on_2024_01_01 0 40) "y";
                    OpBookSlot (on_2024_01_01 0 10) "x"].
Proof.
  refine (proj2 (bookings_of_different_slots_commute
                   first_hour (on_2024_01_01 0 10) (on_2024_01_01 0 40)
                   (on_2024_01_01 0 0) (on_2024_01_01 0 30) "x" "y" _ _ _)).
  - vm_compute. reflexivity.
  - vm_compute. reflexivity.
  - discriminate.
Defined.

(** ** More on rounding *)

Lemma round_positive_us (c : Calendar) (t r : datetime) :
  1 <= time_increment_minutes c -> valid t ->
  round_to_nearest_slot c t = Ok r ->
  to_us r
  = ordinal t * US_PER_DAY
    + ((hour t * 60 + minute t)
       - (hour t * 60 + minute t) mod time_increment_minutes c) * US_PER_MINUTE.
Proof.
  intros Hinc Hv Hr.
  destruct (round_positive_valid c t r Hinc Hv Hr) as (_ & Ho & Hq & Hs & Hu).
  unfold to_us. rewrite Hs, Hu, Ho, <- Hq. unfold_units. lia.
Qed.

Lemma round_positive_near (c : Calendar) (t r : datetime) :
  1 <= time_increment_minutes c -> valid t ->
  round_to_nearest_slot c t = Ok r ->
  date_of r = date_of t /\
  to_us r <= to_us t < to_us r + increment_us (time_increment_minutes c).
Proof.
  intros Hinc Hv Hr.
  destruct (round_positive_valid c t r Hinc Hv Hr) as (_ & Ho & _).
  pose proof (round_positive_us c t r Hinc Hv Hr) as Hus.
  split; [exact Ho|]. rewrite Hus.
  pose proof (Z.mod_pos_bound (hour t * 60 + minute t) (time_increment_minutes c)
                              ltac:(lia)) as Hb.
  set (x := (hour t * 60 + minute t) mod time_increment_minutes c) in *.
  unfold to_us, increment_us. unfold valid in Hv. unfold_units. lia.
Qed.

(** X1. With an increment of at least one minute, rounding stays on the date
    of [t] and goes back by less than one increment. *)
Theorem round_within_increment (c : Calendar) (t : datetime) :
  1 <= time_increment_minutes c -> valid t ->
  exists r,
    round_to_nearest_slot c t = Ok r /\
    date_of r = date_of t /\
    to_us r <= to_us t < to_us r + increment_us (time_increment_minutes c).
Proof.
  intros Hinc Hv.
  pose proof (round_positive c t Hinc Hv) as Hr. cbv zeta in Hr.
  eexists. split; [exact Hr|].
  exact (round_positive_near c t _ Hinc Hv Hr).
Qed.

(** 23:59:59 with an increment of 45 minutes rounds to 23:15 of the same
    day. *)
Lemma round_within_increment_witness :
  exists r,
    round_to_nearest_slot (empty_calendar 45) (mk_datetime 738886 23 59 59 0)
    = Ok r /\
    date_of r = date_of (mk_datetime 738886 23 59 59 0) /\
    to_us r <= to_us (mk_datetime 738886 23 59 59 0)
    < to_us r + increment_us (time_increment_minutes (empty_calendar 45)).
Proof.
  apply round_within_increment.
  - simpl. lia.
  - concrete_valid.
Defined.

(** X2. With an increment of at least one minute, rounding keeps the order of
    timestamps. *)
Theorem round_is_monotone (c : Calendar) (t1 t2 r1 r2 : datetime) :
  1 <= time_increment_minutes c -> valid t1 -> valid t2 ->
  le t1 t2 = true ->
  round_to_nearest_slot c t1 = Ok r1 ->
  round_to_nearest_slot c t2 = Ok r2 ->
  le r1 r2 = true.
Proof.
  intros Hinc Hv1 Hv2 Hle H1 H2.
  destruct (round_positive_valid c t1 r1 Hinc Hv1 H1) as (Hvr1 & _).
  destruct (round_positive_valid c t2 r2 Hinc Hv2 H2) as (Hvr2 & _).
  rewrite (le_to_us _ _ Hv1 Hv2) in Hle. apply Z.leb_le in Hle.
  rewrite (le_to_us _ _ Hvr1 Hvr2). apply Z.leb_le.
  rewrite (round_positive_us c t1 r1 Hinc Hv1 H1).
  rewrite (round_positive_us c t2 r2 Hinc Hv2 H2).
  set (i := time_increment_minutes c) in *.
  set (m1 := hour t1 * 60 + minute t1). set (m2 := hour t2 * 60 + minute t2).
  assert (Hm1 : 0 <= m1 < 1440) by (unfold m1, valid in *; lia).
  assert (Hm2 : 0 <= m2 < 1440) by (unfold m2, valid in *; lia).
  pose proof (Z.mod_pos_bound m1 i ltac:(lia)) as Hb1.
  pose proof (Z.mod_pos_bound m2 i ltac:(lia)) as Hb2.
  pose proof (Z.mod_le m1 i ltac:(lia) ltac:(lia)) as Hl1.
  pose proof (Z.mod_le m2 i ltac:(lia) ltac:(lia)) as Hl2.
  assert (Hcase : ordinal t1 < ordinal t2 \/ (ordinal t1 = ordinal t2 /\ m1 <= m2)).
  { unfold to_us in Hle. unfold m1, m2, valid in *. unfold_units. lia. }
  destruct Hcase as [Hlt|[Heq Hm]].
  - unfold_units. lia.
  - rewrite Heq.
    assert (Hfloor : m1 - m1 mod i <= m2 - m2 mod i).
    { pose proof (Z.div_mod m1 i ltac:(lia)). pose proof (Z.div_mod m2 i ltac:(lia)).
      pose proof (Z.div_le_mono m1 m2 i ltac:(lia) Hm). nia. }
    unfold_units. lia.
Qed.

(** 10:29:59 and 10:30 with an increment of 30 minutes. *)
Lemma round_is_monotone_witness :
  le (on_2024_01_01 10 0) (on_2024_01_01 10 30) = true.
Proof.
  apply (round_is_monotone first_hour (mk_datetime 738886 10 29 59 0)
                           (on_2024_01_01 10 30)).
  - simpl. lia.
  - concrete_valid.
  - concrete_valid.
  - reflexivity.
  - vm_compute. reflexivity.
  - vm_compute. reflexivity.
Defined.

(** ** Lookups *)

Lemma In_dict_nth {V : Type} (d : dict V) (k : datetime) (v : V) :
  dict_get d k = Some v -> exists i, nth_error d i = Some (k, v).
Proof.
  intros H. apply dict_get_In in H. apply In_nth_error in H. exact H.
Qed.

(** What holds of a calendar in use, with the range and increment it was
    built from. *)
Lemma in_use_invariant (fuel : nat) (start_date end_date : datetime)
      (work_start work_end : option time) (inc : Z) (c0 : Calendar)
      (ops : list op) :
  valid start_date -> valid end_date ->
  Calendar_init fuel start_date end_date work_start work_end inc = Some (Ok c0) ->
  time_increment_minutes (run c0 ops) = inc /\
  contiguous (increment_us inc) (slots (run c0 ops)) start_date /\
  (slots (run c0 ops) = [] \/ 1 <= inc) /\
  (1 <= inc ->
   Z.of_nat (List.length (slots (run c0 ops)))
   = Z.max 0 (ceil_div (to_us end_date - to_us start_date) (increment_us inc))).
Proof.
  intros Hs He Hinit.
  destruct (Calendar_init_Ok _ _ _ _ _ _ _ Hs He Hinit)
    as (Hi & Hdelta & Hch & _ & Hcase & Hlen).
  rewrite Hdelta in Hch.
  assert (Hl : List.length (slots (run c0 ops)) = List.length (slots c0)).
  { pose proof (run_keys ops c0) as Hk. unfold keys in Hk.
    apply (f_equal (@List.length datetime)) in Hk.
    rewrite !length_map in Hk. exact Hk. }
  split; [rewrite run_increment; exact Hi|].
  split; [apply run_contiguous; exact Hch|].
  split.
  - destruct Hcase as [E|H]; [left|right; exact H].
    rewrite E in Hl. destruct (slots (run c0 ops)); [reflexivity|discriminate].
  - intros H. rewrite Hl. exact (Hlen H).
Qed.

(** X3. A lookup never hands back the wrong slot: the slot [get_slot_at(t)]
    finds starts at the rounding of [t] and contains [t]. *)
Theorem get_slot_at_contains (fuel : nat) (start_date end_date : datetime)
        (work_start work_end : option time) (inc : Z) (c0 : Calendar)
        (ops : list op) (t : datetime) (slot : TimeSlot) :
  valid start_date -> valid end_date ->
  Calendar_init fuel start_date end_date work_start work_end inc = Some (Ok c0) ->
  valid t ->
  get_slot_at (run c0 ops) t = Ok (Some slot) ->
  round_to_nearest_slot (run c0 ops) t = Ok (start_time slot) /\
  le (start_time slot) t = true /\
  lt t (end_time slot) = true.
Proof.
  intros Hs He Hinit Hv Hg.
  destruct (in_use_invariant _ _ _ _ _ _ _ ops Hs He Hinit)
    as (Hi & Hch & Hcase & _).
  unfold get_slot_at in Hg.
  destruct (round_to_nearest_slot (run c0 ops) t) as [r|e] eqn:Er; [|discriminate].
  cbn [bind] in Hg. injection Hg as Hg.
  assert (Hinc : 1 <= inc).
  { destruct Hcase as [E|H]; [|exact H]. rewrite E in Hg. discriminate. }
  assert (Hinc' : 1 <= time_increment_minutes (run c0 ops)) by (rewrite Hi; exact Hinc).
  destruct (In_dict_nth _ _ _ Hg) as [i Hn].
  destruct (contiguous_nth _ _ _ _ _ _ Hs Hch Hn) as (Hvr & Hst & Ha & Hve & _).
  destruct (add_Ok _ _ _ Ha) as [_ Hu].
  destruct (round_positive_near (run c0 ops) t r Hinc' Hv Er) as (_ & Hb).
  rewrite Hi in Hb.
  rewrite Hst. split; [reflexivity|].
  rewrite (le_to_us _ _ Hvr Hv), (lt_to_us _ _ Hv Hve), Hu.
  split; [apply Z.leb_le|apply Z.ltb_lt]; lia.
Qed.

(** On the first hour of 2024, 00:47:13 is in the slot from 00:30 to
    01:00. *)
Lemma get_slot_at_contains_witness :
  round_to_nearest_slot (run first_hour []) (mk_datetime 738886 0 47 13 0)
  = Ok (on_2024_01_01 0 30) /\
  le (on_2024_01_01 0 30) (mk_datetime 738886 0 47 13 0) = true /\
  lt (mk_datetime 738886 0 47 13 0) (on_2024_01_01 1 0) = true.
Proof.
  apply (get_slot_at_contains
           3 (on_2024_01_01 0 0) (on_2024_01_01 1 0)
           (Some (clock 0 0)) (Some (clock 23 59)) 30 first_hour []
           (mk_datetime 738886 0 47 13 0)
           (mk_TimeSlot (on_2024_01_01 0 30) (on_2024_01_01 1 0)
                        available None None [])).
  - concrete_valid.
  - concrete_valid.
  - vm_compute. reflexivity.
  - concrete_valid.
  - vm_compute. reflexivity.
Defined.

(** ** The grid of the keys and the grid of the rounding *)

(** Adding whole minutes leaves seconds and microseconds as they are. *)
Lemma add_seconds (k k' : datetime) (inc : Z) :
  valid k -> add k (increment_us inc) = Ok k' ->
  second k' = second k /\ microsecond k' = microsecond k.
Proof.
  intros Hv. unfold add.
  destruct (_ && _); [|discriminate]. intros H; injection H as <-.
  destruct k as [o h m s u]. unfold valid in Hv. simpl in Hv.
  unfold of_us, to_us, increment_us. simpl. split; divmod_lia.
Qed.

Lemma add_minutes (k k' : datetime) (inc : Z) :
  valid k -> add k (increment_us inc) = Ok k' ->
  hour k' * 60 + minute k' = (hour k * 60 + minute k + inc) mod 1440.
Proof.
  intros Hv. unfold add.
  destruct (_ && _); [|discriminate]. intros H; injection H as <-.
  destruct k as [o h m s u]. unfold valid in Hv. simpl in Hv.
  unfold of_us, to_us, increment_us. simpl. divmod_lia.
Qed.

(** When the increment divides the day, the minutes since midnight keep
    their remainder by the increment from one key to the next. *)
Lemma add_residue (k k' : datetime) (inc : Z) :
  1 <= inc -> 1440 mod inc = 0 ->
  valid k -> add k (increment_us inc) = Ok k' ->
  (hour k' * 60 + minute k') mod inc = (hour k * 60 + minute k) mod inc.
Proof.
  intros Hinc Hdiv Hv Ha.
  rewrite (add_minutes k k' inc Hv Ha).
  rewrite (Z.mod_mod_divide _ 1440 inc) by (apply Z.mod_divide; lia).
  replace (hour k * 60 + minute k + inc)
    with (hour k * 60 + minute k + 1 * inc) by lia.
  apply Z_mod_plus_full.
Qed.

Lemma contiguous_keys_invariant (P : datetime -> Prop) (delta : timedelta) :
  (forall k k', valid k -> P k -> add k delta = Ok k' -> P k') ->
  forall d from,
    valid from -> P from -> contiguous delta d from -> Forall P (keys d).
Proof.
  intros Hstep d. induction d as [|[k s] rest IH]; simpl; intros from Hv Hp H;
    [constructor|].
  destruct H as (-> & _ & Ha & Hrest).
  constructor; [exact Hp|].
  apply (IH (end_time s)); [exact (proj1 (add_Ok _ _ _ Ha))| |exact Hrest].
  exact (Hstep _ _ Hv Hp Ha).
Qed.

(** A time within one increment after an aligned time rounds to it. *)
Lemma round_to_aligned (c : Calendar) (k t : datetime) :
  1 <= time_increment_minutes c -> 1440 mod time_increment_minutes c = 0 ->
  valid k -> aligned (time_increment_minutes c) k -> valid t ->
  to_us k <= to_us t < to_us k + increment_us (time_increment_minutes c) ->
  round_to_nearest_slot c t = Ok k.
Proof.
  intros Hinc Hdiv Hvk (Hs & Hu & Hm) Hvt Hrange.
  rewrite (round_positive c t Hinc Hvt). f_equal.
  set (i := time_increment_minutes c) in *.
  set (mk := hour k * 60 + minute k) in *.
  set (mt := hour t * 60 + minute t).
  assert (Hmk : 0 <= mk < 1440) by (unfold mk, valid in *; lia).
  assert (Hmt : 0 <= mt < 1440) by (unfold mt, valid in *; lia).
  pose proof (Z.div_mod mk i ltac:(lia)) as Hqk. rewrite Hm, Z.add_0_r in Hqk.
  pose proof (Z.div_mod 1440 i ltac:(lia)) as Hq. rewrite Hdiv, Z.add_0_r in Hq.
  assert (Hfit : mk + i <= 1440).
  { assert (mk / i < 1440 / i) by nia. nia. }
  assert (Hsame : ordinal t = ordinal k /\ mk <= mt < mk + i).
  { unfold to_us, increment_us in Hrange. rewrite Hs, Hu in Hrange.
    unfold mk, mt, valid in *. unfold_units. lia. }
  destruct Hsame as [Ho Hbetween].
  assert (Hmod : mt mod i = mt - mk).
  { symmetry. apply (Z.mod_unique mt i (mk / i)); lia. }
  rewrite Hmod, Ho.
  replace (mt - (mt - mk)) with mk by lia.
  destruct k as [o h m s u]. simpl in *. subst s u.
  unfold valid in Hvk. simpl in Hvk. unfold mk. f_equal; divmod_lia.
Qed.

(** X4. When the increment divides the day and [start_date] is on the rounding
    grid, every timestamp of the range is found: [get_slot_at] returns the
    slot that contains it. *)
Theorem get_slot_at_covers (fuel : nat) (start_date end_date : datetime)
        (work_start work_end : option time) (inc : Z) (c0 : Calendar)
        (ops : list op) (t : datetime) :
  valid start_date -> valid end_date ->
  Calendar_init fuel start_date end_date work_start work_end inc = Some (Ok c0) ->
  1 <= inc -> 1440 mod inc = 0 -> aligned inc start_date ->
  valid t -> le start_date t = true -> lt t end_date = true ->
  exists slot,
    get_slot_at (run c0 ops) t = Ok (Some slot) /\
    le (start_time slot) t = true /\
    lt t (end_time slot) = true.
Proof.
  intros Hs He Hinit Hinc Hdiv Hal Hv Hle Hlt.
  destruct (in_use_invariant _ _ _ _ _ _ _ ops Hs He Hinit)
    as (Hi & Hch & _ & Hlen).
  specialize (Hlen Hinc). pose proof (increment_us_pos inc Hinc) as Hpos.
  rewrite (le_to_us _ _ Hs Hv) in Hle. apply Z.leb_le in Hle.
  rewrite (lt_to_us _ _ Hv He) in Hlt. apply Z.ltb_lt in Hlt.
  set (c := run c0 ops) in *.
  set (delta := increment_us inc) in *.
  set (x := to_us t - to_us start_date).
  set (a := to_us end_date - to_us start_date) in *.
  pose proof (ceil_div_spec a delta Hpos) as Hc.
  pose proof (Z.div_mod x delta ltac:(lia)) as Hx.
  pose proof (Z.mod_pos_bound x delta Hpos) as Hxm.
  assert (Hx0 : 0 <= x / delta) by (apply Z.div_pos; unfold x; lia).
  assert (Hi_lt : x / delta < Z.of_nat (List.length (slots c))).
  { rewrite Hlen. assert (x < a) by (unfold x, a; lia). nia. }
  destruct (nth_error (slots c) (Z.to_nat (x / delta))) as [[k slot]|] eqn:Hn.
  2:{ apply nth_error_None in Hn. lia. }
  destruct (contiguous_nth _ _ _ _ _ _ Hs Hch Hn) as (Hvk & Hst & Ha & Hve & Hk).
  rewrite Z2Nat.id in Hk by lia.
  destruct (add_Ok _ _ _ Ha) as [_ Hu].
  assert (Hrange : to_us k <= to_us t < to_us k + delta) by (unfold x in *; lia).
  assert (Hkeys : Forall (aligned inc) (keys (slots c))).
  { apply (contiguous_keys_invariant (aligned inc) delta) with (from := start_date);
      [|exact Hs|exact Hal|exact Hch].
    intros k1 k2 Hv1 (H1 & H2 & H3) Hadd.
    destruct (add_seconds _ _ _ Hv1 Hadd) as [E1 E2].
    unfold aligned. rewrite E1, E2, (add_residue _ _ _ Hinc Hdiv Hv1 Hadd). auto. }
  assert (Hka : aligned inc k).
  { rewrite Forall_forall in Hkeys. apply Hkeys. unfold keys.
    change k with (fst (k, slot)). apply in_map. exact (nth_error_In _ _ Hn). }
  assert (Hr : round_to_nearest_slot c t = Ok k).
  { apply round_to_aligned; rewrite ?Hi; auto. }
  exists slot. unfold get_slot_at. rewrite Hr. cbn [bind].
  rewrite (contiguous_get _ _ Hpos _ _ _ Hs Hch (nth_error_In _ _ Hn)).
  split; [reflexivity|].
  rewrite Hst, (le_to_us _ _ Hvk Hv), (lt_to_us _ _ Hv Hve), Hu.
  split; [apply Z.leb_le|apply Z.ltb_lt]; lia.
Qed.

(** The calendar around the midnight after 2024-01-01 starts on the grid:
    00:59:59 of the second day is found, in the last slot. *)
Lemma get_slot_at_covers_witness :
  exists slot,
    get_slot_at (run night_shift [OpBookSlot (on_2024_01_01 23 40) "late"])
                (mk_datetime 738887 0 59 59 0)
    = Ok (Some slot) /\
    le (start_time slot) (mk_datetime 738887 0 59 59 0) = true /\
    lt (mk_datetime 738887 0 59 59 0) (end_time slot) = true.
Proof.
  apply (get_slot_at_covers 5 (on_2024_01_01 23 0) (on_2024_01_02 1 0)
                            (Some (clock 17 0)) (Some (clock 9 0)) 30 night_shift).
  - concrete_valid.
  - concrete_valid.
  - vm_compute. reflexivity.
  - lia.
  - reflexivity.
  - repeat split.
  - concrete_valid.
  - reflexivity.
  - reflexivity.
Defined.

(** X5. When [start_date] is off the rounding grid (it has seconds or
    microseconds, or, the increment dividing the day, its minutes are not a
    multiple of the increment), no key is ever the rounding of a timestamp:
    every lookup returns no slot and every booking returns false. *)
Theorem misaligned_calendar_is_unreachable
        (fuel : nat) (start_date end_date : datetime)
        (work_start work_end : option time) (inc : Z) (c0 : Calendar)
        (ops : list op) (t : datetime) (s : string) :
  valid start_date -> valid end_date ->
  Calendar_init fuel start_date end_date work_start work_end inc = Some (Ok c0) ->
  1 <= inc ->
  second start_date <> 0 \/ microsecond start_date <> 0 \/
  (1440 mod inc = 0 /\ (hour start_date * 60 + minute start_date) mod inc <> 0) ->
  valid t ->
  get_slot_at (run c0 ops) t = Ok None /\
  book_slot (run c0 ops) t s = Ok (false, run c0 ops).
Proof.
  intros Hs He Hinit Hinc Hoff Hv.
  destruct (in_use_invariant _ _ _ _ _ _ _ ops Hs He Hinit) as (Hi & Hch & _ & _).
  set (c := run c0 ops) in *.
  assert (Hinc' : 1 <= time_increment_minutes c) by (rewrite Hi; exact Hinc).
  pose proof (round_positive c t Hinc' Hv) as Hr. cbv zeta in Hr.
  destruct (round_positive_valid c t _ Hinc' Hv Hr) as (_ & _ & Hq & Hsec & Hus).
  set (r := mk_datetime _ _ _ _ _) in *.
  assert (Hrm : (hour r * 60 + minute r) mod inc = 0).
  { rewrite Hq, Hi. rewrite Zminus_mod, Z.mod_mod, Z.sub_diag by lia.
    apply Z.mod_0_l. lia. }
  assert (Hnone : dict_get (slots c) r = None).
  { apply dict_get_None. intros Hin.
    destruct Hoff as [H|[H|[Hdiv H]]].
    - assert (Hk : Forall (fun k => second k = second start_date) (keys (slots c))).
      { apply (contiguous_keys_invariant _ (increment_us inc)) with (from := start_date);
          [|exact Hs|reflexivity|exact Hch].
        intros k1 k2 Hv1 H1 Hadd.
        rewrite (proj1 (add_seconds _ _ _ Hv1 Hadd)). exact H1. }
      rewrite Forall_forall in Hk. apply Hk in Hin. congruence.
    - assert (Hk : Forall (fun k => microsecond k = microsecond start_date)
                          (keys (slots c))).
      { apply (contiguous_keys_invariant _ (increment_us inc)) with (from := start_date);
          [|exact Hs|reflexivity|exact Hch].
        intros k1 k2 Hv1 H1 Hadd.
        rewrite (proj2 (add_seconds _ _ _ Hv1 Hadd)). exact H1. }
      rewrite Forall_forall in Hk. apply Hk in Hin. congruence.
    - assert (Hk : Forall (fun k => (hour k * 60 + minute k) mod inc
                                    = (hour start_date * 60 + minute start_date)
                                      mod inc)
                          (keys (slots c))).
      { apply (contiguous_keys_invariant _ (increment_us inc)) with (from := start_date);
          [|exact Hs|reflexivity|exact Hch].
        intros k1 k2 Hv1 H1 Hadd.
        rewrite (add_residue _ _ _ Hinc Hdiv Hv1 Hadd). exact H1. }
      rewrite Forall_forall in Hk. apply Hk in Hin. congruence. }
  unfold book_slot, get_slot_at. rewrite Hr. cbn [bind]. rewrite Hnone.
  split; reflexivity.
Qed.

Lemma half_minute_late_constructed :
  Calendar_init 3 (mk_datetime 738886 0 0 30 0) (on_2024_01_01 1 0) None None 30
  = Some (Ok half_minute_late).
Proof. vm_compute. reflexivity. Qed.

(** A calendar that starts at 00:00:30: even the start time of its first
    slot is not found. *)
Lemma misaligned_calendar_is_unreachable_witness :
  get_slot_at (run half_minute_late []) (mk_datetime 738886 0 0 30 0) = Ok None /\
  book_slot (run half_minute_late []) (mk_datetime 738886 0 0 30 0) "x"
  = Ok (false, run half_minute_late []).
Proof.
  apply (misaligned_calendar_is_unreachable
           3 (mk_datetime 738886 0 0 30 0) (on_2024_01_01 1 0) None None 30
           half_minute_late []).
  - concrete_valid.
  - concrete_valid.
  - vm_compute. reflexivity.
  - lia.
  - left. simpl. discriminate.
  - concrete_valid.
Defined.

(** ** The status the constructor gives *)

(** X11. In the calendar the constructor returns no slot has a title, and a slot
    is 'available' exactly when a bound of the working hours is missing or
    the slot passes [is_during_workday]; otherwise it is 'busy'. *)
Theorem construction_classifies (fuel : nat) (start_date end_date : datetime)
        (work_start work_end : option time) (inc : Z) (c : Calendar)
        (slot : TimeSlot) :
  valid start_date -> valid end_date ->
  Calendar_init fuel start_date end_date work_start work_end inc = Some (Ok c) ->
  In slot (values (slots c)) ->
  title slot = None /\
  status slot
  = match work_start, work_end with
    | Some ws, Some we =>
        if is_during_workday slot ws we then available else busy
    | _, _ => available
    end.
Proof.
  intros Hs He Hinit Hin.
  destruct (Calendar_init_Ok _ _ _ _ _ _ _ Hs He Hinit)
    as (_ & _ & Hch & Hfr & _ & _).
  destruct (In_values_nth _ _ Hin) as (i & k & Hn).
  destruct (contiguous_nth _ _ _ _ _ _ Hs Hch Hn) as (_ & Hst & _).
  rewrite Forall_forall in Hfr.
  pose proof (Hfr _ (nth_error_In _ _ Hn)) as Hnew.
  unfold as_constructed in Hnew. cbn [fst snd] in Hnew.
  assert (Hw : forall ws we,
             is_during_workday slot ws we
             = is_during_workday
                 (mk_TimeSlot k (end_time slot) available None None []) ws we).
  { intros ws we. unfold is_during_workday. rewrite Hst. reflexivity. }
  destruct work_start as [ws|], work_end as [we|];
    try (rewrite Hnew; split; reflexivity).
  rewrite Hw. rewrite Hnew at 1 2.
  unfold new_TimeSlot, post_init.
  destruct (is_during_workday _ ws we); split; reflexivity.
Qed.

(** With only [work_start] given, the slots of the first hour of 2024 are
    available although they are before 09:00. *)
Lemma construction_classifies_witness :
  title (mk_TimeSlot (on_2024_01_01 0 0) (on_2024_01_01 0 30)
                     available None None []) = None /\
  status (mk_TimeSlot (on_2024_01_01 0 0) (on_2024_01_01 0 30)
                      available None None []) = available.
Proof.
  apply (construction_classifies 3 (on_2024_01_01 0 0) (on_2024_01_01 1 0)
                                 (Some (clock 9 0)) None 30 first_hour).
  - concrete_valid.
  - concrete_valid.
  - vm_compute. reflexivity.
  - left. reflexivity.
Defined.

(** X12. Wider working hours never put a slot outside the workday: a slot that is
    during the workday for one window is during the workday for every window
    that starts no later and ends no earlier. *)
Theorem is_during_workday_widens (slot : TimeSlot) (ws we ws' we' : time) :
  valid (start_time slot) -> valid (end_time slot) ->
  valid_time ws -> valid_time we -> valid_time ws' -> valid_time we' ->
  time_le ws' ws = true -> time_le we we' = true ->
  is_during_workday slot ws we = true ->
  is_during_workday slot ws' we' = true.
Proof.
  intros Hs He Hws Hwe Hws' Hwe' H1 H2. unfold is_during_workday.
  rewrite !andb_true_iff.
  pose proof (valid_time_of _ Hs) as Hts. pose proof (valid_time_of _ He) as Hte.
  rewrite (time_le_us _ _ Hws' Hws) in H1. rewrite (time_le_us _ _ Hwe Hwe') in H2.
  rewrite !(time_ge_us _ _ Hts), !(time_le_us _ _ Hte) by assumption.
  lia.
Qed.

(** A slot from 10:00 to 10:30, during the workday from 09:00 to 17:00, is
    during the workday from 08:00 to 18:00. *)
Lemma is_during_workday_widens_witness :
  is_during_workday
    (mk_TimeSlot (on_2024_01_01 10 0) (on_2024_01_01 10 30) available None None [])
    (clock 8 0) (clock 18 0)
  = true.
Proof.
  apply (is_during_workday_widens _ (clock 9 0) (clock 17 0));
    try concrete_valid; reflexivity.
Defined.

(** * The system prompt *)

Lemma rstrip_snoc_space (s : str) (c : N) :
  isspace c = true -> rstrip (s ++ [c]) = rstrip s.
Proof.
  intros H. unfold rstrip. rewrite rev_app_distr. simpl. rewrite H. reflexivity.
Qed.

Lemma rstrip_snoc_nonspace (s : str) (c : N) :
  isspace c = false -> rstrip (s ++ [c]) = s ++ [c].
Proof.
  intros H. unfold rstrip. rewrite rev_app_distr. simpl. rewrite H.
  change (c :: rev s) with ([c] ++ rev s).
  rewrite rev_app_distr, rev_involutive. reflexivity.
Qed.

(** Text that starts and ends with something other than white space, put
    between two line feeds: [strip] takes the line feeds away and nothing
    else, whatever is in between. *)
Lemma strip_between_newlines (a b : N) (s : str) :
  isspace a = false -> isspace b = false ->
  strip (10%N :: a :: s ++ [b; 10%N]) = a :: s ++ [b] /\
  strip (a :: s ++ [b]) = a :: s ++ [b].
Proof.
  intros Ha Hb. unfold strip.
  assert (Hl : lstrip (10%N :: a :: s ++ [b; 10%N]) = a :: s ++ [b; 10%N]).
  { cbn [lstrip]. rewrite Ha. reflexivity. }
  assert (Hl' : lstrip (a :: s ++ [b]) = a :: s ++ [b]).
  { cbn [lstrip]. rewrite Ha. reflexivity. }
  rewrite Hl, Hl'.
  change (a :: s ++ [b; 10%N]) with ((a :: s) ++ [b] ++ [10%N]).
  change (a :: s ++ [b]) with ((a :: s) ++ [b]).
  rewrite app_assoc.
  rewrite (rstrip_snoc_space _ 10%N eq_refl).
  rewrite (rstrip_snoc_nonspace _ b Hb). auto.
Qed.

(** X13. The system prompt is the template without its first and last line
    feed, with [persona] and [task] in it exactly as given (white space at
    their ends included, nothing escaped); it never starts or ends with
    white space. *)
Theorem system_prompt_is_verbatim (persona task : str) :
  create_agent_system_prompt persona task
  = tl template_before_persona ++ persona ++ template_before_task ++ task
    ++ removelast template_after_task /\
  strip (create_agent_system_prompt persona task)
  = create_agent_system_prompt persona task.
Proof.
  unfold create_agent_system_prompt. cbv zeta.
  set (h := tl (tl template_before_persona)).
  set (f := removelast (removelast template_after_task)).
  replace template_before_persona with (10%N :: 89%N :: h) by reflexivity.
  replace template_after_task with (f ++ [45%N; 10%N]) by reflexivity.
  generalize template_before_task. intros m. clearbody h f.
  rewrite (removelast_app f (l' := [45%N; 10%N])) by discriminate.
  cbn [tl removelast].
  assert (E : (10%N :: 89%N :: h) ++ persona ++ m ++ task ++ f ++ [45%N; 10%N]
              = 10%N :: 89%N :: (h ++ persona ++ m ++ task ++ f) ++ [45%N; 10%N]).
  { simpl. rewrite <- !app_assoc. reflexivity. }
  assert (E' : (89%N :: h) ++ persona ++ m ++ task ++ f ++ [45%N]
               = 89%N :: (h ++ persona ++ m ++ task ++ f) ++ [45%N]).
  { simpl. rewrite <- !app_assoc. reflexivity. }
  rewrite E, E'.
  destruct (strip_between_newlines 89%N 45%N (h ++ persona ++ m ++ task ++ f)
                                   eq_refl eq_refl) as [H1 H2].
  rewrite H1. split; [reflexivity|exact H2].
Qed.
